(** * winerp client: a shallow embedding of [winerp/client.py]

    The client is a single Python object driven by one asyncio event
    loop.  Its attributes become the fields of the record [Client];
    every method is a function that takes the client and returns the
    client after the call together with either the exception that
    escaped or the returned value.  A mutation made before a [raise]
    stays in the returned client, as in Python.

    What the event loop does is written out: [loop.create_task] appends
    to the log [tasks], [loop.create_future] allocates a cell in the
    store [futures], and a coroutine that suspends on a future is cut in
    two at its [await]. *)

From Stdlib Require Import ZArith.
From stdpp Require Import gmap strings list fin_maps.

Set Warnings "-register-all".

Open Scope string_scope.
Open Scope list_scope.

(** ** Python values *)

(** The JSON fragment of Python values, tuples (which [json.dumps]
    encodes as arrays and the [%] operator unpacks), and [VObject] for
    any object that [json.dumps] refuses (its argument is the class
    name). *)
Inductive PyVal : Type :=
  | VNone
  | VBool (b : bool)
  | VInt (z : Z)
  | VStr (s : string)
  | VList (l : list PyVal)
  | VTuple (l : list PyVal)
  | VDict (d : list (string * PyVal))
  | VObject (cls : string).

(** Truth value of a Python object, as [if x:] and [x or y] test it. *)
Definition truthy (v : PyVal) : bool :=
  match v with
  | VNone => false
  | VBool b => b
  | VInt z => negb (Z.eqb z 0)
  | VStr s => negb (String.eqb s "")
  | VList l => match l with [] => false | _ => true end
  | VTuple l => match l with [] => false | _ => true end
  | VDict d => match d with [] => false | _ => true end
  | VObject _ => true
  end.

(** [json.dumps] walks the value and stops at the first object it cannot
    encode; [json_unserializable v] is the class of that object. *)
Fixpoint json_unserializable (v : PyVal) : option string :=
  match v with
  | VNone | VBool _ | VInt _ | VStr _ => None
  | VList l | VTuple l =>
      (fix walk (l : list PyVal) : option string :=
         match l with
         | [] => None
         | x :: l' =>
             match json_unserializable x with
             | Some c => Some c
             | None => walk l'
             end
         end) l
  | VDict d =>
      (fix walk (d : list (string * PyVal)) : option string :=
         match d with
         | [] => None
         | (_, x) :: d' =>
             match json_unserializable x with
             | Some c => Some c
             | None => walk d'
             end
         end) d
  | VObject cls => Some cls
  end.

Definition json_serializable (v : PyVal) : bool :=
  match json_unserializable v with None => true | Some _ => false end.

(** [d.get(key, default)] on a dict literal: the last binding of a key
    wins when the list repeats it, so the list is searched from the end. *)
Fixpoint dict_get (d : list (string * PyVal)) (key : string) : option PyVal :=
  match d with
  | [] => None
  | (k, v) :: d' =>
      match dict_get d' key with
      | Some w => Some w
      | None => if String.eqb k key then Some v else None
      end
  end.

(** ** Exceptions *)

(** The exception classes the client raises or meets.  [UserError] is any
    class a route handler defines; its flag says whether the class
    derives from [Exception]. *)
Inductive ExcClass : Type :=
  | ClientNotReadyError
  | UnauthorizedError
  | InvalidRouteType
  | MissingUUIDError
  | UUIDNotFoundError
  | CheckFailureError
  | ClientRuntimeError
  | ValueError
  | TypeError
  | NameError
  | AttributeError
  | KeyError
  | ConnectionError
  | TimeoutError
  | InvalidStateError
  | ConnectionClosedError
  | ConnectionClosedOK
  | CancelledError
  | SystemExit
  | KeyboardInterrupt
  | UserError (name : string) (derives_Exception : bool).

(** [isinstance(error, Exception)].  Since Python 3.8
    [asyncio.CancelledError] derives from [BaseException] only, like
    [SystemExit] and [KeyboardInterrupt]. *)
Definition is_Exception (c : ExcClass) : bool :=
  match c with
  | CancelledError | SystemExit | KeyboardInterrupt => false
  | UserError _ b => b
  | _ => true
  end.

(** An exception object: its class and the argument it was built with. *)
Record PyExc : Type := mkExc { exc_class : ExcClass; exc_arg : PyVal }.

(** ["... %s" % v], as the client's log statements evaluate it before
    they call the logger: a tuple on the right is unpacked, and it must
    then hold exactly one value.  [percent_format v] is the exception
    raised, if any. *)
Definition percent_format (v : PyVal) : option PyExc :=
  match v with
  | VTuple [] => Some (mkExc TypeError (VStr "not enough arguments for format string"))
  | VTuple [_] => None
  | VTuple _ =>
      Some (mkExc TypeError (VStr "not all arguments converted during string formatting"))
  | _ => None
  end.

(** ** Route and event handlers *)

Inductive Outcome : Type :=
  | Returns (v : PyVal)
  | Raises (e : PyExc).

(** A Python function object: [func.__name__],
    [asyncio.iscoroutinefunction(func)], whether its signature binds a
    call with [n] positional arguments (the call raises [TypeError] when
    it does not), and what awaiting the call of [func] with keyword
    arguments gives.  Handlers are taken to complete. *)
Record PyFunc : Type := mkFunc {
  __name__ : string;
  iscoroutinefunction : bool;
  binds : nat -> bool;
  call : list (string * PyVal) -> Outcome
}.

(** Awaiting [func] called with [data] unpacked as keyword arguments:
    the unpacking needs a mapping. *)
Definition call_kwargs (func : PyFunc) (data : PyVal) : Outcome :=
  match data with
  | VDict d => call func d
  | _ => Raises (mkExc TypeError (VStr "argument after ** must be a mapping"))
  end.

(** ** Envelopes *)

(** Modelled from the spec: [winerp/lib/payload.py] is not among the
    sources.  [Payloads.t] is the discriminator of an envelope: the six
    kinds of the spec's data model, and [success], the kind of the
    relay's answer to a verification, which the client tests with
    [message.type.success]. *)
Module Payloads.
Inductive t : Type :=
  | success
  | verification
  | request
  | response
  | error
  | ping
  | information.

#[global] Instance eq_dec : EqDecision t.
Proof. solve_decision. Defined.
End Payloads.

(** Modelled from the spec: [winerp/lib/message.py] is not among the
    sources.  [WsMessage] is a received envelope with the attributes the
    client reads: [type], [id] (the sender), [destination], [route],
    [data] (the payload), [uuid] (the correlation id) and [traceback]. *)
Record WsMessage : Type := mkMessage {
  msg_type : Payloads.t;
  msg_id : option string;
  msg_destination : option string;
  msg_route : option string;
  msg_data : PyVal;
  msg_uuid : option string;
  msg_traceback : option string
}.

(** Modelled from the spec: [MessagePayload] of [winerp/lib/payload.py],
    an envelope to send, built from keyword arguments; a keyword that is
    not given stays [None]. *)
Record MessagePayload : Type := mkPayload {
  p_type : option Payloads.t;
  p_id : option string;
  p_destination : option string;
  p_route : PyVal;
  p_data : PyVal;
  p_uuid : option string;
  p_traceback : option string
}.

(** [MessagePayload()] *)
Definition MessagePayload_new : MessagePayload :=
  mkPayload None None None VNone VNone None None.

Definition opt_str (o : option string) : PyVal :=
  match o with Some s => VStr s | None => VNone end.

(** Modelled from the spec: [MessagePayload.from_message] of
    [winerp/lib/payload.py].  The reply is built from the received
    envelope: it goes back to the requester and echoes the correlation
    id unchanged. *)
Definition from_message (p : MessagePayload) (msg : WsMessage) : MessagePayload :=
  {| p_type := Some (msg_type msg);
     p_id := msg_id msg;
     p_destination := msg_id msg;
     p_route := opt_str (msg_route msg);
     p_data := msg_data msg;
     p_uuid := msg_uuid msg;
     p_traceback := msg_traceback msg |}.

(** ** The transport and the event loop *)

(** The state of the connection object, as its [open] and [closed]
    properties show it. *)
Inductive WsState : Type := OPEN | CLOSING | CLOSED.

(** The connection returned by [websockets.connect]; [ws_sent] is what
    [websocket.send] has written, oldest first. *)
Record WebSocket : Type := mkWs {
  ws_state : WsState;
  ws_sent : list MessagePayload
}.

Definition ws_open (ws : WebSocket) : bool :=
  match ws_state ws with OPEN => true | _ => false end.

Definition ws_closed (ws : WebSocket) : bool :=
  match ws_state ws with CLOSED => true | _ => false end.

(** An [asyncio.Future]. *)
Inductive Future : Type :=
  | fut_pending
  | fut_result (v : PyVal)
  | fut_exception (e : PyExc)
  | fut_cancelled.

(** An argument handed to an event handler: a payload or the exception
    caught by the invoker. *)
Inductive EventArg : Type :=
  | arg_val (v : PyVal)
  | arg_exc (e : PyExc).

(** A coroutine handed to [loop.create_task].  An event task records the
    handler that [get_event] returned when the task was made ([None] is
    the empty event). *)
Inductive Task : Type :=
  | task_send_message (data : MessagePayload)
  | task_event (key : string) (handler : option PyFunc) (args : list EventArg)
  | task_on_message
  | task_fulfill_request (message : WsMessage)
  | task_dispatch (msg : WsMessage).

(** A value of [self.listeners]: the acceptance check (or [None]) and the
    future, by its index in the store. *)
Definition Listener : Type := option (PyVal -> bool) * nat.

(** ** The client *)

(** The attributes of [Client], then the two parts of the event loop the
    client uses.  [listeners] is a Python dict that [_dispatch] iterates,
    so it keeps its insertion order: a list of items with distinct keys
    (see [dict_wf]). *)
Record Client : Type := mkClient {
  port : Z;
  local_name : string;
  websocket : option WebSocket;
  routes : gmap string PyFunc;
  listeners : list (string * Listener);
  _authorized : bool;
  _on_hold : bool;
  events : gmap string (option PyFunc);
  futures : list Future;
  tasks : list Task
}.

Definition with_websocket (w : option WebSocket) (c : Client) : Client :=
  mkClient (port c) (local_name c) w (routes c) (listeners c)
           (_authorized c) (_on_hold c) (events c) (futures c) (tasks c).

Definition with_routes (r : gmap string PyFunc) (c : Client) : Client :=
  mkClient (port c) (local_name c) (websocket c) r (listeners c)
           (_authorized c) (_on_hold c) (events c) (futures c) (tasks c).

Definition with_listeners (l : list (string * Listener)) (c : Client) : Client :=
  mkClient (port c) (local_name c) (websocket c) (routes c) l
           (_authorized c) (_on_hold c) (events c) (futures c) (tasks c).

Definition with_authorized (b : bool) (c : Client) : Client :=
  mkClient (port c) (local_name c) (websocket c) (routes c) (listeners c)
           b (_on_hold c) (events c) (futures c) (tasks c).

Definition with_on_hold (b : bool) (c : Client) : Client :=
  mkClient (port c) (local_name c) (websocket c) (routes c) (listeners c)
           (_authorized c) b (events c) (futures c) (tasks c).

Definition with_events (e : gmap string (option PyFunc)) (c : Client) : Client :=
  mkClient (port c) (local_name c) (websocket c) (routes c) (listeners c)
           (_authorized c) (_on_hold c) e (futures c) (tasks c).

Definition with_futures (f : list Future) (c : Client) : Client :=
  mkClient (port c) (local_name c) (websocket c) (routes c) (listeners c)
           (_authorized c) (_on_hold c) (events c) f (tasks c).

Definition with_tasks (t : list Task) (c : Client) : Client :=
  mkClient (port c) (local_name c) (websocket c) (routes c) (listeners c)
           (_authorized c) (_on_hold c) (events c) (futures c) t.

(** [Client.__init__] *)
Definition __init__ (local_name : string) (port : Z) : Client :=
  {| port := port;
     local_name := local_name;
     websocket := None;
     routes := ∅;
     listeners := [];
     _authorized := false;
     _on_hold := false;
     events :=
       <["on_winerp_connect" := None]>
       (<["on_winerp_ready" := None]>
       (<["on_winerp_disconnect" := None]>
       (<["on_winerp_request" := None]>
       (<["on_winerp_response" := None]>
       (<["on_winerp_information" := None]>
       (<["on_winerp_error" := None]> ∅))))));
     futures := [];
     tasks := [] |}.

(** The properties [authorized] and [on_hold]. *)
Definition authorized (c : Client) : bool := _authorized c.
Definition on_hold (c : Client) : bool := _on_hold c.

(** ** Methods as state-passing computations *)

(** A method body: from the client before the call to the client after
    it and the exception raised or the value returned. *)
Definition Coro (A : Type) : Type := Client -> Client * (PyExc + A).

Definition raise {A} (cls : ExcClass) (arg : PyVal) : Coro A :=
  fun c => (c, inl (mkExc cls arg)).

Definition reraise {A} (e : PyExc) : Coro A := fun c => (c, inl e).

Definition modify (f : Client -> Client) : Coro unit := fun c => (f c, inr tt).

(** Sequencing stops at the first exception and keeps the state reached;
    the instances give [Coro] stdpp's notations [x ← m; k] and [m;; k]. *)
Global Instance Coro_ret : MRet Coro := fun A (a : A) c => (c, inr a).

Global Instance Coro_bind : MBind Coro := fun A B (k : A -> Coro B) (m : Coro A) c =>
  match m c with
  | (c', inl e) => (c', inl e)
  | (c', inr a) => k a c'
  end.

(** [self.loop.create_task(coro)] *)
Definition create_task (t : Task) (c : Client) : Client :=
  with_tasks (tasks c ++ [t]) c.

(** [self.loop.create_future()]: a new pending cell; its index is the
    future. *)
Definition create_future (c : Client) : Client * nat :=
  (with_futures (futures c ++ [fut_pending]) c, length (futures c)).

(** [self.get_event(key)]: [self.events.get(key) or self.__empty_event];
    [None] stands for the empty event. *)
Definition get_event (c : Client) (key : string) : option PyFunc :=
  match events c !! key with
  | Some (Some f) => Some f
  | _ => None
  end.

(** Calling the handler that [get_event] returned with [n] positional
    arguments gives a coroutine, or raises [TypeError] when the
    signature of the handler does not bind the call.  The empty event
    takes any arguments. *)
Definition can_call (handler : option PyFunc) (n : nat) : bool :=
  match handler with
  | Some f => binds f n
  | None => true
  end.

(** [self.loop.create_task(self.get_event(key)(args))]: the handler is
    called first, and the coroutine it returns becomes a task. *)
Definition notify (key : string) (args : list EventArg) : Coro unit :=
  fun c =>
    if can_call (get_event c key) (length args)
    then (create_task (task_event key (get_event c key) args) c, inr tt)
    else raise TypeError (VStr "the handler does not take these arguments") c.

(** A log statement whose message is built with [%] from [v]. *)
Definition log_percent (v : PyVal) : Coro unit :=
  fun c =>
    match percent_format v with
    | Some e => reraise e c
    | None => (c, inr tt)
    end.

(** [json.dumps(data.to_dict())] fails on the first field that holds an
    object JSON cannot encode. *)
Definition payload_unserializable (p : MessagePayload) : option string :=
  match json_unserializable (p_route p) with
  | Some cls => Some cls
  | None => json_unserializable (p_data p)
  end.

Definition not_serializable (cls : string) : PyExc :=
  mkExc TypeError (VStr ("Object of type " +:+ cls +:+ " is not JSON serializable")).

(** [Client.send_message], for the [MessagePayload] objects the client
    passes to it. *)
Definition send_message (data : MessagePayload) : Coro unit :=
  fun c =>
    match websocket c with
    | None => raise AttributeError (VStr "'NoneType' object has no attribute 'send'") c
    | Some ws =>
        match payload_unserializable data with
        | Some cls => reraise (not_serializable cls) c
        | None =>
            if ws_open ws
            then (with_websocket (Some (mkWs (ws_state ws) (ws_sent ws ++ [data]))) c, inr tt)
            else raise ConnectionClosedError VNone c
        end
    end.

(** [Client.__send_message] *)
Definition __send_message (data : MessagePayload) (c : Client) : Client :=
  create_task (task_send_message data) c.

(** ** Dicts that are iterated *)

(** [d[k] = v] on a dict kept as its list of items: an existing key keeps
    its place and takes the new value, a new key goes to the end. *)
Fixpoint dict_setitem {V} (k : string) (v : V) (d : list (string * V)) : list (string * V) :=
  match d with
  | [] => [(k, v)]
  | (k', v') :: d' =>
      if decide (k' = k) then (k, v) :: d' else (k', v') :: dict_setitem k v d'
  end.

(** [d.get(k)] *)
Fixpoint dict_lookup {V} (k : string) (d : list (string * V)) : option V :=
  match d with
  | [] => None
  | (k', v') :: d' => if decide (k' = k) then Some v' else dict_lookup k d'
  end.

(** The keys of a dict are distinct. *)
Definition dict_wf {V} (d : list (string * V)) : Prop := NoDup (d.*1).

(** ** Connecting and registering *)

(** [Client.start].  [connect] is what [websockets.connect] does: raise,
    or return a connection that is open; [_uuid] is the value of
    [str(uuid.uuid4())]. *)
Definition start (connect : PyExc + unit) (_uuid : string) : Coro unit :=
  fun c =>
    if match websocket c with None => true | Some ws => ws_closed ws end
    then
      match connect with
      | inl e => reraise e c
      | inr _ =>
          (modify (with_websocket (Some (mkWs OPEN [])));;
           notify "on_winerp_connect" [];;
           send_message
             {| p_type := Some Payloads.verification;
                p_id := Some (local_name c);
                p_destination := None;
                p_route := VNone;
                p_data := VNone;
                p_uuid := Some _uuid;
                p_traceback := None |};;
           modify (create_task task_on_message)) c
      end
    else raise ConnectionError (VStr "Websocket is already connected!") c.

(** [name or func.__name__] *)
Definition route_key (name : option string) (func : PyFunc) : string :=
  match name with
  | Some n => if decide (n = "") then __name__ func else n
  | None => __name__ func
  end.

(** [key in self.routes] *)
Definition in_routes (c : Client) (key : string) : bool :=
  match routes c !! key with Some _ => true | None => false end.

(** [Client.route(name)(func)]: the decorator applied to [func]. *)
Definition route (name : option string) (func : PyFunc) : Coro PyFunc :=
  fun c =>
    if match name with
       | None => in_routes c (__name__ func)
       | Some n => in_routes c n
       end
    then raise ValueError (VStr "Route name already exists!") c
    else if negb (iscoroutinefunction func)
    then raise InvalidRouteType (VStr "Route function must be a coro.") c
    else (with_routes (<[route_key name func := func]> (routes c)) c, inr func).

(** [Client.event] *)
Definition event (func : PyFunc) : Coro PyFunc :=
  fun c =>
    match events c !! __name__ func with
    | None => raise NameError (VStr "Invalid winerp event") c
    | Some _ =>
        if negb (iscoroutinefunction func)
        then raise TypeError (VStr "Event function must be a coro.") c
        else (with_events (<[__name__ func := Some func]> (events c)) c, inr func)
    end.

(** ** Waiting for a reply *)

(** What [__get_response] returns: the coroutine
    [asyncio.wait_for(future, timeout)], not yet awaited. *)
Record Awaitable : Type := mkAwaitable { aw_future : nat; aw_timeout : Z }.

(** [Client.__get_response] *)
Definition __get_response (_uuid : string) (timeout : Z) : Coro Awaitable :=
  fun c =>
    let '(c, future) := create_future c in
    (with_listeners (dict_setitem _uuid (None, future) (listeners c)) c,
     inr (mkAwaitable future timeout)).

(** [await asyncio.wait_for(future, timeout)], at the moment the caller
    is woken.  A future that is done gives its result or raises its
    exception; a future that is still pending means the timeout woke the
    caller: [wait_for] cancels the future and raises [TimeoutError]. *)
Definition wait_for (aw : Awaitable) : Coro PyVal :=
  fun c =>
    match futures c !! aw_future aw with
    | Some (fut_result v) => (c, inr v)
    | Some (fut_exception e) => reraise e c
    | Some fut_cancelled => raise CancelledError VNone c
    | Some fut_pending =>
        raise TimeoutError VNone
              (with_futures (<[aw_future aw := fut_cancelled]> (futures c)) c)
    | None => raise InvalidStateError VNone c
    end.

(** ** Outbound operations *)

Definition websocket_open (c : Client) : bool :=
  match websocket c with Some ws => ws_open ws | None => false end.

Definition not_ready_msg : PyVal :=
  VStr "The client is currently not ready to send or accept requests.".

(** [Client.ping], up to the [await] of the reply. *)
Definition ping (client : option string) (timeout : Z) (_uuid : string) : Coro Awaitable :=
  fun c =>
    if _on_hold c || negb (websocket_open c)
    then raise ClientNotReadyError not_ready_msg c
    else if negb (_authorized c)
    then raise UnauthorizedError (VStr "Client is not authorized!") c
    else
      (send_message
         {| p_type := Some Payloads.ping;
            p_id := Some (local_name c);
            p_destination := client;
            p_route := VNone;
            p_data := VNone;
            p_uuid := Some _uuid;
            p_traceback := None |};;
       __get_response _uuid timeout) c.

(** [resp.get("success", False)] *)
Definition get_success (resp : PyVal) : Coro PyVal :=
  match resp with
  | VDict d => mret (default (VBool false) (dict_get d "success"))
  | _ => raise AttributeError (VStr "object has no attribute 'get'")
  end.

(** [Client.ping], from the [await] of the reply to the [return]. *)
Definition ping_resume (aw : Awaitable) : Coro PyVal :=
  resp ← wait_for aw;
  get_success resp.

(** [Client.request], up to the [await] of the reply; [kwargs] are the
    keyword arguments of the call. *)
Definition request (route source : string) (timeout : Z)
    (kwargs : list (string * PyVal)) (_uuid : string) : Coro Awaitable :=
  fun c =>
    if websocket_open c
    then
      if _on_hold c
      then raise ClientNotReadyError not_ready_msg c
      else if negb (_authorized c)
      then raise UnauthorizedError (VStr "Client is not authorized!") c
      else if bool_decide (route = "") || bool_decide (source = "")
      then raise ValueError (VStr "Missing required information for this request") c
      else
        (send_message
           {| p_type := Some Payloads.request;
              p_id := Some (local_name c);
              p_destination := Some source;
              p_route := VStr route;
              p_data := VDict kwargs;
              p_uuid := Some _uuid;
              p_traceback := None |};;
         __get_response _uuid timeout) c
    else raise ClientNotReadyError
               (VStr "The client has not been started or has disconnected") c.

(** [Client.request], from the [await] of the reply to the [return]. *)
Definition request_resume (aw : Awaitable) : Coro PyVal :=
  recv ← wait_for aw;
  mret recv.

(** [Client.inform] *)
Definition inform (data destinations : PyVal) : Coro unit :=
  fun c =>
    if websocket_open c
    then
      if _on_hold c
      then raise ClientNotReadyError not_ready_msg c
      else if negb (_authorized c)
      then raise UnauthorizedError (VStr "Client is not authorized!") c
      else
        (log_percent destinations;;
         let destinations :=
           match destinations with
           | VList _ => destinations
           | _ => VList [destinations]
           end in
         send_message
           {| p_type := Some Payloads.information;
              p_id := Some (local_name c);
              p_destination := None;
              p_route := destinations;
              p_data := data;
              p_uuid := None;
              p_traceback := None |}) c
    else raise ClientNotReadyError
               (VStr "The client has not been started or has disconnected") c.

(** ** Resolving a pending operation *)

(** [future.set_result(v)] and [future.set_exception(e)]: only a pending
    future accepts an outcome. *)
Definition set_outcome (future : nat) (outcome : Future) : Coro unit :=
  fun c =>
    match futures c !! future with
    | Some fut_pending => (with_futures (<[future := outcome]> (futures c)) c, inr tt)
    | _ => raise InvalidStateError (VStr "invalid state") c
    end.

Definition set_result (future : nat) (v : PyVal) : Coro unit :=
  set_outcome future (fut_result v).

Definition set_exception (future : nat) (e : PyExc) : Coro unit :=
  set_outcome future (fut_exception e).

(** [message.type.<kind>] *)
Definition is_type (message : WsMessage) (kind : Payloads.t) : bool :=
  bool_decide (msg_type message = kind).

(** The body of the [for] loop of [_dispatch] for one item whose key is
    the correlation id. *)
Definition resolve (msg : WsMessage) (_uuid : string) (val : Listener) : Coro unit :=
  let check := default (fun _ => true) val.1 in
  let future := val.2 in
  if negb (is_type msg Payloads.error)
  then
    if check (msg_data msg)
    then set_result future (msg_data msg)
    else set_exception future
           (mkExc CheckFailureError (VStr ("Check failed for UUID " +:+ _uuid)))
  else set_exception future (mkExc ClientRuntimeError (msg_data msg)).

(** The [for] loop of [_dispatch] over [self.listeners.items()]; it
    carries [found] and goes on after a match. *)
Fixpoint dispatch_items (msg : WsMessage) (_uuid : string)
    (items : list (string * Listener)) (found : bool) : Coro bool :=
  match items with
  | [] => mret found
  | (key, val) :: items' =>
      if decide (key = _uuid)
      then resolve msg _uuid val;; dispatch_items msg _uuid items' true
      else dispatch_items msg _uuid items' found
  end.

(** [Client._dispatch] *)
Definition _dispatch (msg : WsMessage) : Coro unit :=
  fun c =>
    match msg_uuid msg with
    | None => raise MissingUUIDError (VStr "UUID is missing.") c
    | Some _uuid =>
        (found ← dispatch_items msg _uuid (listeners c) false;
         if found : bool
         then mret tt
         else raise UUIDNotFoundError
                (VStr ("UUID " +:+ _uuid +:+ " not found in listeners."))) c
    end.

(** ** The receive loop *)

(** One pass through the body of the [while True] loop of
    [__on_message] for a received envelope.  The boolean says whether the
    loop goes on: [false] is the [return] of the unknown-route branch.
    An exception raised in the body is not caught by the loop. *)
Definition on_message_body (message : WsMessage) : Coro bool :=
  fun c =>
    if is_type message Payloads.success && negb (_authorized c) then
      (notify "on_winerp_ready" [];;
       modify (with_authorized true);;
       modify (with_on_hold false);;
       mret true) c
    else if is_type message Payloads.ping then
      (create_task (task_dispatch message) c, inr true)
    else if is_type message Payloads.request then
      if negb (match msg_route message with
               | Some r => in_routes c r
               | None => false
               end)
      then
        let payload :=
          {| p_type := Some Payloads.error;
             p_id := Some (local_name c);
             p_destination := msg_id message;
             p_route := VNone;
             p_data := VStr "Route not found";
             p_uuid := msg_uuid message;
             p_traceback := Some "Route not found" |} in
        (__send_message payload c, inr false)
      else
        (modify (create_task (task_fulfill_request message));;
         notify "on_winerp_request" [];;
         mret true) c
    else if is_type message Payloads.response then
      (modify (create_task (task_dispatch message));;
       notify "on_winerp_response" [];;
       mret true) c
    else if is_type message Payloads.error then
      ((if match msg_data message with
           | VStr s => bool_decide (s = "Already authorized.")
           | _ => false
           end
        then modify (with_on_hold true)
        else (log_percent (msg_data message);;
              notify "on_winerp_error" [arg_val (msg_data message)]));;
       match msg_uuid message with
       | Some _ => modify (create_task (task_dispatch message))
       | None => mret tt
       end;;
       mret true) c
    else if is_type message Payloads.information then
      if truthy (msg_data message)
      then
        (notify "on_winerp_information"
                [arg_val (msg_data message); arg_val (opt_str (msg_id message))];;
         mret true) c
      else (c, inr true)
    else (c, inr true).

(** How the transport ends: [websocket.recv] raises
    [ConnectionClosedError] or [ConnectionClosedOK]. *)
Inductive Closure : Type := closed_error | closed_ok.

(** How [__on_message] ends: the [break] after a disconnect, the [return]
    of the unknown-route branch (with the envelopes it never read), or an
    exception that the [try] does not catch. *)
Inductive LoopExit : Type :=
  | loop_break
  | loop_return (unread : list WsMessage)
  | loop_raise (e : PyExc).

(** The connection is closed once [recv] has raised. *)
Definition transport_closed (c : Client) : Client :=
  match websocket c with
  | Some ws => with_websocket (Some (mkWs CLOSED (ws_sent ws))) c
  | None => c
  end.

(** The [except] branch of the loop and what escapes it. *)
Definition on_closed (closure : Closure) (c : Client) : Client * LoopExit :=
  let c := transport_closed c in
  match closure with
  | closed_error =>
      match notify "on_winerp_disconnect" [] c with
      | (c, inl e) => (c, loop_raise e)
      | (c, inr _) => (c, loop_break)
      end
  | closed_ok => (c, loop_raise (mkExc ConnectionClosedOK VNone))
  end.

(** [Client.__on_message]: the transport yields frames that decode to
    the envelopes of [incoming], in order, and then closes with
    [closure]. *)
Fixpoint __on_message (incoming : list WsMessage) (closure : Closure) (c : Client)
    : Client * LoopExit :=
  match incoming with
  | [] => on_closed closure c
  | message :: incoming' =>
      match on_message_body message c with
      | (c', inr true) => __on_message incoming' closure c'
      | (c', inr false) => (c', loop_return incoming')
      | (c', inl e) => (c', loop_raise e)
      end
  end.

(** ** The request invoker *)

Definition set_p_type (k : Payloads.t) (p : MessagePayload) : MessagePayload :=
  mkPayload (Some k) (p_id p) (p_destination p) (p_route p) (p_data p) (p_uuid p) (p_traceback p).

Definition set_p_id (id : string) (p : MessagePayload) : MessagePayload :=
  mkPayload (p_type p) (Some id) (p_destination p) (p_route p) (p_data p) (p_uuid p) (p_traceback p).

Definition set_p_data (data : PyVal) (p : MessagePayload) : MessagePayload :=
  mkPayload (p_type p) (p_id p) (p_destination p) (p_route p) data (p_uuid p) (p_traceback p).

Definition set_p_traceback (tb : string) (p : MessagePayload) : MessagePayload :=
  mkPayload (p_type p) (p_id p) (p_destination p) (p_route p) (p_data p) (p_uuid p) (Some tb).

Section Invoker.

(** The builtin [str] on an exception, and
    [traceback.format_exception], which gives the lines of the
    formatted stack trace of an exception. *)
Variable py_str : PyExc -> string.
Variable format_exception : PyExc -> list string.

(** The [try] block of [_fulfill_request]: the payload as the block
    leaves it, and the exception raised in it, if any. *)
Definition try_handler (func : PyFunc) (data : PyVal) (payload : MessagePayload)
    : MessagePayload * option PyExc :=
  match call_kwargs func data with
  | Raises error => (payload, Some error)
  | Returns result =>
      let payload := set_p_data result payload in
      match json_unserializable result with
      | Some cls => (payload, Some (not_serializable cls))
      | None => (payload, None)
      end
  end.

(** [Client._fulfill_request].  An exception raised in the [except]
    block (by the call of the "error" handler) leaves the payload as the
    [try] block left it; the [finally] clause sends it and the exception
    goes on. *)
Definition _fulfill_request (message : WsMessage) : Coro unit :=
  fun c =>
    match msg_route message ≫= (fun route => routes c !! route) with
    | None => raise KeyError (opt_str (msg_route message)) c
    | Some func =>
        let data := msg_data message in
        let payload := from_message MessagePayload_new message in
        let payload := set_p_type Payloads.response payload in
        let payload := set_p_id (local_name c) payload in
        let payload := set_p_data (VDict []) payload in
        match try_handler func data payload with
        | (payload, None) => (__send_message payload c, inr tt)
        | (payload, Some error) =>
            if is_Exception (exc_class error)
            then
              match notify "on_winerp_error" [arg_exc error] c with
              | (c, inl e) => (__send_message payload c, inl e)
              | (c, inr _) =>
                  let lines := format_exception error in
                  let traceback_text := String.concat "" lines in
                  let payload := set_p_type Payloads.error payload in
                  let payload := set_p_data (VStr (py_str error)) payload in
                  let payload := set_p_traceback traceback_text payload in
                  (__send_message payload c, inr tt)
              end
            else (__send_message payload c, inl error)
        end
    end.

(** *** Everything that can happen to a client

    One [Op] is one atomic stretch of a method between two suspension
    points, or something the peer does to the connection.  The event
    loop may interleave them in any order, so a property of every
    sequence of [Op]s holds on every schedule. *)
Inductive Op : Type :=
  | op_start (connect : PyExc + unit) (_uuid : string)
  | op_route (name : option string) (func : PyFunc)
  | op_event (func : PyFunc)
  | op_ping (client : option string) (timeout : Z) (_uuid : string)
  | op_ping_resume (aw : Awaitable)
  | op_request (route source : string) (timeout : Z)
               (kwargs : list (string * PyVal)) (_uuid : string)
  | op_request_resume (aw : Awaitable)
  | op_inform (data destinations : PyVal)
  | op_get_response (_uuid : string) (timeout : Z)
  | op_send_message (data : MessagePayload)
  | op_recv (message : WsMessage)
  | op_closed (closure : Closure)
  | op_fulfill_request (message : WsMessage)
  | op_dispatch (msg : WsMessage)
  | op_transport (st : WsState).

Definition step (c : Client) (op : Op) : Client :=
  match op with
  | op_start connect _uuid => (start connect _uuid c).1
  | op_route name func => (route name func c).1
  | op_event func => (event func c).1
  | op_ping client timeout _uuid => (ping client timeout _uuid c).1
  | op_ping_resume aw => (ping_resume aw c).1
  | op_request r source timeout kwargs _uuid => (request r source timeout kwargs _uuid c).1
  | op_request_resume aw => (request_resume aw c).1
  | op_inform data destinations => (inform data destinations c).1
  | op_get_response _uuid timeout => (__get_response _uuid timeout c).1
  | op_send_message data => (send_message data c).1
  | op_recv message => (on_message_body message c).1
  | op_closed closure => (on_closed closure c).1
  | op_fulfill_request message => (_fulfill_request message c).1
  | op_dispatch msg => (_dispatch msg c).1
  | op_transport st =>
      match websocket c with
      | Some ws => with_websocket (Some (mkWs st (ws_sent ws))) c
      | None => c
      end
  end.

Definition run (c : Client) (ops : list Op) : Client := fold_left step ops c.

End Invoker.

(** The "ready" notifications handed to the event loop so far. *)
Definition is_ready_event (t : Task) : bool :=
  match t with
  | task_event key _ _ => bool_decide (key = "on_winerp_ready")
  | _ => false
  end.

Definition ready_count (c : Client) : nat := length (filter is_ready_event (tasks c)).

(** The reply envelopes handed to the event loop so far. *)
Definition sends (ts : list Task) : list MessagePayload :=
  omap (fun t => match t with task_send_message p => Some p | _ => None end) ts.

(** * Vocabulary of the properties *)

(** A call fails with an exception of class [cls] and leaves the client
    as it was: nothing written to the connection, no task made, no
    listener registered. *)
Definition fails_with {A} (r : Client * (PyExc + A)) (c : Client) (cls : ExcClass) : Prop :=
  r.1 = c /\ exists e, r.2 = inl e /\ exc_class e = cls.

(** What the dispatcher stores in the future of the matching entry. *)
Definition resolution (msg : WsMessage) (_uuid : string)
    (check : option (PyVal -> bool)) : Future :=
  if is_type msg Payloads.error
  then fut_exception (mkExc ClientRuntimeError (msg_data msg))
  else if default (fun _ => true) check (msg_data msg)
  then fut_result (msg_data msg)
  else fut_exception (mkExc CheckFailureError (VStr ("Check failed for UUID " +:+ _uuid))).

(** The envelope that answers a request for an unknown route. *)
Definition route_not_found (c : Client) (message : WsMessage) : MessagePayload :=
  {| p_type := Some Payloads.error;
     p_id := Some (local_name c);
     p_destination := msg_id message;
     p_route := VNone;
     p_data := VStr "Route not found";
     p_uuid := msg_uuid message;
     p_traceback := Some "Route not found" |}.

(** The Error envelope built from a caught exception. *)
Definition is_error_reply (py_str : PyExc -> string)
    (format_exception : PyExc -> list string) (p : MessagePayload) (e : PyExc) : Prop :=
  p_type p = Some Payloads.error /\
  p_data p = VStr (py_str e) /\
  p_traceback p = Some (String.concat "" (format_exception e)).

(** [c'] has the authorization flag of [c] and as many "ready"
    notifications, and its correlation table has distinct keys if that
    of [c] has. *)
Definition quiet (c c' : Client) : Prop :=
  _authorized c' = _authorized c /\
  ready_count c' = ready_count c /\
  (dict_wf (listeners c) -> dict_wf (listeners c')).

(** The invariant of every run: at most one "ready" notification, and
    none before the client is authorized. *)
Definition ready_once (c : Client) : Prop :=
  ready_count c <= 1 /\ (_authorized c = false -> ready_count c = 0).

(** * Sample data *)

(** The builtin [str] on exceptions built from one string (a [KeyError]
    shows the string quoted), and a three-line stack trace. *)
Definition str_sample (e : PyExc) : string :=
  match exc_class e, exc_arg e with
  | KeyError, VStr s => "'" +:+ s +:+ "'"
  | _, VStr s => s
  | _, _ => ""
  end.

Definition format_sample (e : PyExc) : list string :=
  ["Traceback (most recent call last): "; "... "; str_sample e].

(** The route of the spec's scenario: the sum of [x] and [y]. *)
Definition add_handler : PyFunc :=
  mkFunc "add" true (fun n => Nat.leb n 2)
    (fun kwargs =>
       match dict_get kwargs "x", dict_get kwargs "y" with
       | Some (VInt x), Some (VInt y) => Returns (VInt (x + y))
       | _, _ => Raises (mkExc TypeError (VStr "add() got unexpected arguments"))
       end).

Definition other_add : PyFunc := mkFunc "add" true (fun n => Nat.leb n 2) (fun _ => Returns (VInt 0)).

(** A handler that leaves by [sys.exit]. *)
Definition exit_handler : PyFunc :=
  mkFunc "quit" true (fun n => Nat.eqb n 0) (fun _ => Raises (mkExc SystemExit (VInt 1))).

(** A handler that fails with an ordinary exception. *)
Definition failing_handler : PyFunc :=
  mkFunc "fail" true (fun n => Nat.eqb n 0) (fun _ => Raises (mkExc (UserError "Boom" true) (VStr "it broke"))).

(** A handler whose result JSON cannot encode. *)
Definition object_handler : PyFunc :=
  mkFunc "obj" true (fun n => Nat.eqb n 0) (fun _ => Returns (VList [VInt 1; VObject "set"])).

(** Client ["A"]: new; connected; authorized; on hold before and after
    authorization. *)
Definition client_A : Client := __init__ "A" 13254.

Definition client_connected : Client := with_websocket (Some (mkWs OPEN [])) client_A.

Definition client_authorized : Client := with_authorized true client_connected.

Definition client_on_hold : Client := with_on_hold true client_connected.

Definition client_held_authorized : Client := with_on_hold true client_authorized.

(** Client ["A"] with routes. *)
Definition client_with_add : Client := (route None add_handler client_A).1.

Definition server : Client := with_routes (<["add" := add_handler]> ∅) client_authorized.

Definition server_routes : Client :=
  with_routes (<["quit" := exit_handler]>
              (<["fail" := failing_handler]>
              (<["obj" := object_handler]>
              (<["add" := add_handler]> ∅)))) client_authorized.

(** Client ["A"] waiting for the reply to ["u1"], and having sent the
    ping ["p1"]. *)
Definition client_waiting : Client := (__get_response "u1" 60 client_authorized).1.

Definition ping_sent : Client := (ping (Some "B") 1 "p1" client_authorized).1.

(** Envelopes from ["B"]. *)
Definition msg_of (kind : Payloads.t) (uuid : option string) (data : PyVal) : WsMessage :=
  mkMessage kind (Some "B") (Some "A") None data uuid None.

Definition response_u1 : WsMessage :=
  msg_of Payloads.response (Some "u1") (VDict [("success", VBool true)]).

Definition error_u1 : WsMessage := msg_of Payloads.error (Some "u1") (VStr "boom").

Definition request_for (r : string) (uuid : string) : WsMessage :=
  mkMessage Payloads.request (Some "B") (Some "A") (Some r)
            (VDict [("x", VInt 2); ("y", VInt 3)]) (Some uuid) None.

Definition request_nope : WsMessage := request_for "nope" "r1".

Definition request_add : WsMessage := request_for "add" "r2".

(** A life of a client: start, authorization, a second success envelope,
    the connection lost, a restart, a third success envelope. *)
Definition sample_life : list Op :=
  [op_start (inr tt) "v1";
   op_recv (msg_of Payloads.success (Some "v1") VNone);
   op_recv (msg_of Payloads.success None VNone);
   op_closed closed_error;
   op_start (inr tt) "v2";
   op_recv (msg_of Payloads.success (Some "v2") VNone)].

(** * Vocabulary of the further properties *)

(** The client can send: its connection is [ws] and is open, it is not on
    hold and it is authorized. *)
Definition ready (c : Client) (ws : WebSocket) : Prop :=
  websocket c = Some ws /\ ws_open ws = true /\
  _on_hold c = false /\ _authorized c = true.

(** The client after [data] has been written to its connection [ws]. *)
Definition wrote (data : MessagePayload) (ws : WebSocket) (c : Client) : Client :=
  with_websocket (Some (mkWs (ws_state ws) (ws_sent ws ++ [data]))) c.

(** The client after a pending operation has been registered under
    [_uuid]. *)
Definition registered (_uuid : string) (c : Client) : Client :=
  with_listeners (dict_setitem _uuid (None, length (futures c)) (listeners c))
                 (with_futures (futures c ++ [fut_pending]) c).

(** The envelopes that [start], [request], [ping] and [inform] build. *)
Definition verification_payload (c : Client) (_uuid : string) : MessagePayload :=
  mkPayload (Some Payloads.verification) (Some (local_name c)) None VNone VNone
            (Some _uuid) None.

Definition request_payload (c : Client) (route source : string)
    (kwargs : list (string * PyVal)) (_uuid : string) : MessagePayload :=
  mkPayload (Some Payloads.request) (Some (local_name c)) (Some source) (VStr route)
            (VDict kwargs) (Some _uuid) None.

Definition ping_payload (c : Client) (client : option string) (_uuid : string)
    : MessagePayload :=
  mkPayload (Some Payloads.ping) (Some (local_name c)) client VNone VNone
            (Some _uuid) None.

Definition as_list (destinations : PyVal) : PyVal :=
  match destinations with
  | VList _ => destinations
  | _ => VList [destinations]
  end.

Definition information_payload (c : Client) (data destinations : PyVal) : MessagePayload :=
  mkPayload (Some Payloads.information) (Some (local_name c)) None
            (as_list destinations) data None None.

(** The names of the seven events. *)
Definition event_names : list string :=
  ["on_winerp_connect"; "on_winerp_ready"; "on_winerp_disconnect";
   "on_winerp_request"; "on_winerp_response"; "on_winerp_information";
   "on_winerp_error"].

(** [message] is a request for a route that [c] does not have. *)
Definition unknown_request (c : Client) (message : WsMessage) : bool :=
  is_type message Payloads.request &&
  negb (match msg_route message with Some r => in_routes c r | None => false end).

(** Every handler that the receive loop may call can be called with
    the arguments the loop gives it. *)
Definition handlers_fit (c : Client) : bool :=
  can_call (get_event c "on_winerp_ready") 0 &&
  can_call (get_event c "on_winerp_request") 0 &&
  can_call (get_event c "on_winerp_response") 0 &&
  can_call (get_event c "on_winerp_error") 1 &&
  can_call (get_event c "on_winerp_information") 2 &&
  can_call (get_event c "on_winerp_disconnect") 0.

(** The client after the receive loop has gone through [incoming]. *)
Definition received (incoming : list WsMessage) (c : Client) : Client :=
  fold_left (fun c message => (on_message_body message c).1) incoming c.

(** What every operation keeps: the identity of the client, the names of
    its routes and events, the entries of the correlation table, the
    outcome of a future that is done, the authorization, and the hold of
    an authorized client. *)
Definition evolves (c c' : Client) : Prop :=
  local_name c' = local_name c /\
  port c' = port c /\
  (forall k, is_Some (routes c !! k) -> is_Some (routes c' !! k)) /\
  (forall k, is_Some (events c !! k) <-> is_Some (events c' !! k)) /\
  (forall k, is_Some (dict_lookup k (listeners c)) ->
             is_Some (dict_lookup k (listeners c'))) /\
  (forall f x, futures c !! f = Some x -> x <> fut_pending -> futures c' !! f = Some x) /\
  (_authorized c = true -> _authorized c' = true) /\
  (_authorized c = true -> _on_hold c = true -> _on_hold c' = true).

(** [c'] is [c] with other outcomes in its futures: the same number of
    futures, and every other field the same. *)
Definition only_futures (c c' : Client) : Prop :=
  c' = with_futures (futures c') c /\ length (futures c') = length (futures c).

(** More sample data. *)
Definition on_winerp_ready_handler : PyFunc :=
  mkFunc "on_winerp_ready" true (fun n => Nat.eqb n 0) (fun _ => Returns VNone).

Definition not_a_coroutine : PyFunc := mkFunc "sync_add" false (fun n => Nat.leb n 2) (fun _ => Returns (VInt 0)).

Definition ws_one : WebSocket := mkWs OPEN [].

Definition both_requests : Client :=
  (request "add" "B" 60 [] "u2" (request "add" "B" 60 [] "u1" client_authorized).1).1.

(** * Properties *)

(** ** Readiness and authorization gate (C5) *)

Lemma raise_fails_with {A} cls arg (c : Client) : fails_with (raise (A:=A) cls arg c) c cls.
Proof. split; [reflexivity | eexists; split; reflexivity]. Qed.

(** C5.  [request], [ping] and [inform], whatever their arguments: on a
    client that is on hold, or whose connection is absent or not open,
    each fails with [ClientNotReadyError]; on a client whose connection
    is open and that is not on hold but not authorized, each fails with
    [UnauthorizedError].  In both cases the client is unchanged, so no
    envelope is sent. *)
Theorem outbound_calls_gated (c : Client) :
  (_on_hold c = true \/ websocket_open c = false ->
     (forall r src t kw u, fails_with (request r src t kw u c) c ClientNotReadyError) /\
     (forall cl t u, fails_with (ping cl t u c) c ClientNotReadyError) /\
     (forall d ds, fails_with (inform d ds c) c ClientNotReadyError)) /\
  (websocket_open c = true /\ _on_hold c = false /\ _authorized c = false ->
     (forall r src t kw u, fails_with (request r src t kw u c) c UnauthorizedError) /\
     (forall cl t u, fails_with (ping cl t u c) c UnauthorizedError) /\
     (forall d ds, fails_with (inform d ds c) c UnauthorizedError)).
Proof.
  split.
  - intros Hgate. split; [| split]; intros; unfold request, ping, inform.
    + destruct Hgate as [-> | ->]; [destruct (websocket_open c) |];
        apply raise_fails_with.
    + destruct Hgate as [-> | ->]; [| rewrite orb_true_r];
        apply raise_fails_with.
    + destruct Hgate as [-> | ->]; [destruct (websocket_open c) |];
        apply raise_fails_with.
  - intros (Hopen & Hhold & Hauth).
    split; [| split]; intros; unfold request, ping, inform;
      rewrite Hopen, Hhold, Hauth; apply raise_fails_with.
Qed.

Lemma outbound_calls_gated_witness :
  fails_with (ping (Some "B") 1 "u1" client_on_hold) client_on_hold ClientNotReadyError /\
  fails_with (inform (VStr "hello") (VStr "B") client_A) client_A ClientNotReadyError /\
  fails_with (request "add" "B" 60 [("x", VInt 2)] "u2" client_connected)
             client_connected UnauthorizedError.
Proof.
  split; [| split].
  - apply (proj1 (outbound_calls_gated client_on_hold)). left. reflexivity.
  - apply (proj1 (outbound_calls_gated client_A)). right. reflexivity.
  - apply (proj2 (outbound_calls_gated client_connected)).
    split; [| split]; reflexivity.
Defined.

(** ** Route registry (C8) *)

(** C8.  Registering a route under a name that the registry already
    holds (the explicit name, or the function's own name when no name is
    given) raises [ValueError("Route name already exists!")] and leaves
    the client, hence the registry, unchanged: the name still maps to the
    handler registered first. *)
Theorem route_duplicate_rejected (c : Client) (name : option string) (func first : PyFunc) :
  routes c !! (match name with Some n => n | None => __name__ func end) = Some first ->
  route name func c = (c, inl (mkExc ValueError (VStr "Route name already exists!"))) /\
  routes (route name func c).1
    !! (match name with Some n => n | None => __name__ func end) = Some first.
Proof.
  intros Hfirst.
  assert (Hraise : route name func c
                   = (c, inl (mkExc ValueError (VStr "Route name already exists!")))).
  { unfold route, in_routes. destruct name as [n |]; rewrite Hfirst; reflexivity. }
  rewrite Hraise. split; [reflexivity | exact Hfirst].
Qed.

Lemma route_duplicate_rejected_witness :
  route (Some "add") other_add client_with_add
    = (client_with_add, inl (mkExc ValueError (VStr "Route name already exists!"))) /\
  routes (route (Some "add") other_add client_with_add).1 !! "add" = Some add_handler.
Proof.
  apply (route_duplicate_rejected client_with_add (Some "add") other_add add_handler).
  vm_compute. reflexivity.
Defined.

(** ** Leaving the hold (C4) *)

(** Unfolds one pass of the receive loop down to its tests. *)
Ltac open_body :=
  unfold on_message_body, notify, log_percent, modify, __send_message, raise, reraise,
         mbind, mret, Coro_bind, Coro_ret.

(** A success envelope received by a client that is authorized and on
    hold does not clear the hold. *)
Lemma hold_survives_success_when_authorized :
  ~ (forall (c : Client) (message : WsMessage),
       _on_hold c = true -> msg_type message = Payloads.success ->
       _on_hold (on_message_body message c).1 = false).
Proof.
  intros Hspec.
  specialize (Hspec client_held_authorized (msg_of Payloads.success None VNone)
                eq_refl eq_refl).
  vm_compute in Hspec. discriminate Hspec.
Qed.

(** A Response envelope, which is not an error, received by a client
    that is on hold and not authorized does not clear the hold: not
    every non-error envelope clears it. *)
Lemma hold_survives_other_kinds :
  ~ (forall (c : Client) (message : WsMessage),
       _on_hold c = true -> msg_type message <> Payloads.error ->
       _on_hold (on_message_body message c).1 = false).
Proof.
  intros Hspec.
  assert (Hkind : msg_type response_u1 <> Payloads.error) by discriminate.
  specialize (Hspec client_on_hold response_u1 eq_refl Hkind).
  vm_compute in Hspec. discriminate Hspec.
Qed.

(** An envelope that does not take the success branch leaves a client
    that is on hold on hold. *)
Lemma on_message_body_on_hold (message : WsMessage) (c : Client) :
  _on_hold c = true ->
  is_type message Payloads.success && negb (_authorized c) = false ->
  _on_hold (on_message_body message c).1 = true.
Proof.
  intros Hhold Hbranch. open_body. rewrite Hbranch.
  repeat (case_match; simplify_eq/=); auto.
Qed.

(** C4, amended.  On a client that is on hold and not yet authorized, a
    received envelope clears the hold exactly when it is a success
    envelope, and that envelope also authorizes the client; an envelope
    of any other kind leaves the client on hold.  (The "ready" handler,
    when one is registered, is one that can be called without
    arguments.) *)
Theorem hold_cleared_iff (c : Client) (message : WsMessage) :
  _on_hold c = true ->
  _authorized c = false ->
  can_call (get_event c "on_winerp_ready") 0 = true ->
  (_on_hold (on_message_body message c).1 = false
     <-> msg_type message = Payloads.success) /\
  (msg_type message = Payloads.success ->
     _authorized (on_message_body message c).1 = true).
Proof.
  intros Hhold Hauth Hready.
  assert (Hsuccess : msg_type message = Payloads.success ->
                     on_message_body message c
                     = (with_on_hold false (with_authorized true
                          (create_task (task_event "on_winerp_ready"
                                          (get_event c "on_winerp_ready") []) c)),
                        inr true)).
  { intros Hty. open_body. unfold is_type. rewrite Hty, Hauth. simpl.
    rewrite Hready. reflexivity. }
  split.
  - split.
    + intros Hcleared. destruct (decide (msg_type message = Payloads.success)) as [Hty | Hty];
        [exact Hty |].
      rewrite on_message_body_on_hold in Hcleared; [discriminate | exact Hhold |].
      unfold is_type. rewrite bool_decide_eq_false_2 by exact Hty. reflexivity.
    + intros Hty. rewrite (Hsuccess Hty). reflexivity.
  - intros Hty. rewrite (Hsuccess Hty). reflexivity.
Qed.

Lemma hold_cleared_iff_witness :
  _on_hold (on_message_body (msg_of Payloads.success None VNone) client_on_hold).1 = false /\
  _authorized (on_message_body (msg_of Payloads.success None VNone) client_on_hold).1 = true.
Proof.
  destruct (hold_cleared_iff client_on_hold (msg_of Payloads.success None VNone)
              eq_refl eq_refl eq_refl)
    as [Hiff Hauth].
  split.
  - apply Hiff. reflexivity.
  - apply Hauth; reflexivity.
Defined.

(** ** Registering a pending operation (C9) *)

(** Registering under an id that is outstanding does not fail, and the
    entry that was there is gone. *)
Lemma duplicate_id_not_rejected :
  ~ (forall (c : Client) (_uuid : string) (timeout : Z) (old : Listener),
       dict_lookup _uuid (listeners c) = Some old ->
       (exists e, (__get_response _uuid timeout c).2 = inl e) /\
       dict_lookup _uuid (listeners (__get_response _uuid timeout c).1) = Some old).
Proof.
  intros Hspec.
  destruct (Hspec client_waiting "u1" 60%Z (None, 0) eq_refl) as [[e He] _].
  vm_compute in He. discriminate He.
Qed.

Lemma dict_lookup_setitem {V} (k : string) (v : V) (d : list (string * V)) :
  dict_lookup k (dict_setitem k v d) = Some v.
Proof.
  induction d as [| [k' v'] d IH]; simpl.
  - rewrite decide_True; reflexivity.
  - destruct (decide (k' = k)) as [-> | Hne]; simpl.
    + rewrite decide_True; reflexivity.
    + rewrite decide_False by assumption. exact IH.
Qed.

Lemma dict_lookup_setitem_ne {V} (k k' : string) (v : V) (d : list (string * V)) :
  k' <> k -> dict_lookup k' (dict_setitem k v d) = dict_lookup k' d.
Proof.
  intros Hne. induction d as [| [k0 v0] d IH]; simpl.
  - rewrite decide_False by congruence. reflexivity.
  - destruct (decide (k0 = k)) as [-> | Hk0]; simpl.
    + rewrite !decide_False by congruence. reflexivity.
    + destruct (decide (k0 = k')); [reflexivity | exact IH].
Qed.

Lemma dict_setitem_keys {V} (k : string) (v : V) (d : list (string * V)) :
  (dict_setitem k v d).*1
    = match dict_lookup k d with Some _ => d.*1 | None => d.*1 ++ [k] end.
Proof.
  induction d as [| [k' v'] d IH]; simpl; [reflexivity |].
  destruct (decide (k' = k)) as [-> | Hne]; simpl; [reflexivity |].
  destruct (dict_lookup k d); simpl in IH |- *; f_equal; exact IH.
Qed.

Lemma dict_lookup_None {V} (k : string) (d : list (string * V)) :
  dict_lookup k d = None <-> k ∉ d.*1.
Proof.
  induction d as [| [k' v'] d IH]; simpl.
  - split; [intros _; apply not_elem_of_nil | reflexivity].
  - rewrite not_elem_of_cons. destruct (decide (k' = k)) as [-> | Hne].
    + split; [discriminate | intros [Hk _]; congruence].
    + rewrite IH. split; [intros H; split; [congruence | exact H] | intros [_ H]; exact H].
Qed.

Lemma dict_setitem_wf {V} (k : string) (v : V) (d : list (string * V)) :
  dict_wf d -> dict_wf (dict_setitem k v d).
Proof.
  unfold dict_wf. intros Hwf. rewrite dict_setitem_keys.
  destruct (dict_lookup k d) eqn:Hk; [exact Hwf |].
  apply NoDup_app. split; [exact Hwf | split].
  - intros x Hx Hin. apply list_elem_of_singleton in Hin as ->.
    apply dict_lookup_None in Hk. contradiction.
  - apply NoDup_singleton.
Qed.

(** C9, amended.  Registering a pending operation under a correlation id
    never fails.  It creates a fresh pending future and binds the id to
    it with no acceptance check: an entry already outstanding under that
    id is replaced without notice, entries under other ids are untouched,
    and the table keeps one entry per id. *)
Theorem get_response_replaces (c : Client) (_uuid : string) (timeout : Z) :
  let c' := (__get_response _uuid timeout c).1 in
  let future := length (futures c) in
  (__get_response _uuid timeout c).2 = inr (mkAwaitable future timeout) /\
  futures c' = futures c ++ [fut_pending] /\
  dict_lookup _uuid (listeners c') = Some (None, future) /\
  (forall k, k <> _uuid -> dict_lookup k (listeners c') = dict_lookup k (listeners c)) /\
  (dict_wf (listeners c) -> dict_wf (listeners c')).
Proof.
  simpl. repeat split.
  - apply dict_lookup_setitem.
  - intros k Hne. apply dict_lookup_setitem_ne. exact Hne.
  - apply dict_setitem_wf.
Qed.

Lemma get_response_replaces_witness :
  (__get_response "u1" 5 client_waiting).2 = inr (mkAwaitable 1 5) /\
  dict_lookup "u1" (listeners (__get_response "u1" 5 client_waiting).1) = Some (None, 1) /\
  dict_lookup "u0" (listeners (__get_response "u1" 5 client_waiting).1) = None /\
  dict_wf (listeners (__get_response "u1" 5 client_waiting).1).
Proof.
  destruct (get_response_replaces client_waiting "u1" 5) as (Hret & _ & Hnew & Hother & Hwf).
  split; [exact Hret | split; [exact Hnew | split]].
  - rewrite Hother by discriminate. reflexivity.
  - apply Hwf. vm_compute. apply NoDup_singleton.
Defined.

(** ** The correlation table after a resolution (C2) *)

Lemma set_outcome_listeners (future : nat) (o : Future) (c : Client) :
  listeners (set_outcome future o c).1 = listeners c.
Proof.
  unfold set_outcome. destruct (futures c !! future) as [[] |]; reflexivity.
Qed.

Lemma resolve_listeners (msg : WsMessage) (_uuid : string) (val : Listener) (c : Client) :
  listeners (resolve msg _uuid val c).1 = listeners c.
Proof.
  unfold resolve, set_result, set_exception.
  destruct (negb _); [destruct (default _ _ _) |]; apply set_outcome_listeners.
Qed.

Lemma dispatch_items_listeners (msg : WsMessage) (_uuid : string)
    (items : list (string * Listener)) (found : bool) (c : Client) :
  listeners (dispatch_items msg _uuid items found c).1 = listeners c.
Proof.
  revert found c. induction items as [| [key val] items IH]; intros found c; simpl.
  - reflexivity.
  - destruct (decide (key = _uuid)) as [_ | _]; [| apply IH].
    unfold mbind, Coro_bind.
    pose proof (resolve_listeners msg _uuid val c) as Hres.
    destruct (resolve msg _uuid val c) as [c' [e | []]]; simpl in *.
    + exact Hres.
    + rewrite IH. exact Hres.
Qed.

Lemma dispatch_listeners (msg : WsMessage) (c : Client) :
  listeners (_dispatch msg c).1 = listeners c.
Proof.
  unfold _dispatch. destruct (msg_uuid msg) as [_uuid |]; [| reflexivity].
  unfold mbind, Coro_bind.
  pose proof (dispatch_items_listeners msg _uuid (listeners c) false c) as Hitems.
  destruct (dispatch_items msg _uuid (listeners c) false c) as [c' [e | []]];
    simpl in *; exact Hitems.
Qed.

Lemma wait_for_listeners (aw : Awaitable) (c : Client) :
  listeners (wait_for aw c).1 = listeners c.
Proof.
  unfold wait_for. destruct (futures c !! aw_future aw) as [[] |]; reflexivity.
Qed.

(** After the dispatcher has resolved the operation registered under
    ["u1"], and likewise after the caller's wait has timed out, the table
    still holds the entry. *)
Lemma resolved_entry_stays :
  ~ (forall (c : Client) (msg : WsMessage) (_uuid : string) (val : Listener),
       msg_uuid msg = Some _uuid ->
       dict_lookup _uuid (listeners c) = Some val ->
       dict_lookup _uuid (listeners (_dispatch msg c).1) = None) /\
  ~ (forall (c : Client) (_uuid : string) (check : option (PyVal -> bool))
            (future : nat) (timeout : Z),
       dict_lookup _uuid (listeners c) = Some (check, future) ->
       futures c !! future = Some fut_pending ->
       dict_lookup _uuid (listeners (request_resume (mkAwaitable future timeout) c).1) = None).
Proof.
  split; intros Hspec.
  - specialize (Hspec client_waiting response_u1 "u1" (None, 0) eq_refl eq_refl).
    vm_compute in Hspec. discriminate Hspec.
  - specialize (Hspec client_waiting "u1" None 0 60%Z eq_refl eq_refl).
    vm_compute in Hspec. discriminate Hspec.
Qed.

(** A reply that comes after the caller's timeout still finds the entry,
    and the dispatcher task dies on the cancelled future. *)
Remark late_reply_after_timeout :
  (_dispatch response_u1 (request_resume (mkAwaitable 0 60) client_waiting).1).2
    = inl (mkExc InvalidStateError (VStr "invalid state")).
Proof. vm_compute. reflexivity. Qed.

(** C2, amended.  Resolving a pending operation does not touch the
    correlation table: after the dispatcher has handled an envelope, and
    after a caller of [request] or [ping] has been woken by a reply or by
    its timeout, the table holds exactly the entries it held before. *)
Theorem listeners_kept_on_resolution (c : Client) :
  (forall msg, listeners (_dispatch msg c).1 = listeners c) /\
  (forall aw, listeners (request_resume aw c).1 = listeners c) /\
  (forall aw, listeners (ping_resume aw c).1 = listeners c).
Proof.
  split; [| split]; intros x.
  - apply dispatch_listeners.
  - unfold request_resume, mbind, Coro_bind.
    pose proof (wait_for_listeners x c) as Hw.
    destruct (wait_for x c) as [c' [e | v]]; exact Hw.
  - unfold ping_resume, mbind, Coro_bind.
    pose proof (wait_for_listeners x c) as Hw.
    destruct (wait_for x c) as [c' [e | v]]; [exact Hw |].
    destruct v; exact Hw.
Qed.

(** ** The resolution rule (C7) *)

Lemma resolve_pending (msg : WsMessage) (_uuid : string)
    (check : option (PyVal -> bool)) (future : nat) (c : Client) :
  futures c !! future = Some fut_pending ->
  resolve msg _uuid (check, future) c
    = (with_futures (<[future := resolution msg _uuid check]> (futures c)) c, inr tt).
Proof.
  intros Hpending.
  unfold resolve, resolution, set_result, set_exception, set_outcome. simpl.
  destruct (is_type msg Payloads.error); simpl;
    [| destruct (default _ check (msg_data msg))]; rewrite Hpending; reflexivity.
Qed.

Lemma dispatch_items_miss (msg : WsMessage) (_uuid : string)
    (items : list (string * Listener)) (found : bool) (c : Client) :
  dict_lookup _uuid items = None ->
  dispatch_items msg _uuid items found c = (c, inr found).
Proof.
  revert found. induction items as [| [key val] items IH]; intros found Hmiss; simpl in *.
  - reflexivity.
  - destruct (decide (key = _uuid)); [discriminate | apply IH; exact Hmiss].
Qed.

Lemma dispatch_items_hit (msg : WsMessage) (_uuid : string)
    (items : list (string * Listener)) (found : bool) (val : Listener) (c c' : Client) :
  dict_wf items ->
  dict_lookup _uuid items = Some val ->
  resolve msg _uuid val c = (c', inr tt) ->
  dispatch_items msg _uuid items found c = (c', inr true).
Proof.
  unfold dict_wf. revert found.
  induction items as [| [key v] items IH]; intros found Hwf Hhit Hres; simpl in *.
  - discriminate.
  - apply NoDup_cons in Hwf as [Hfresh Hwf].
    destruct (decide (key = _uuid)) as [-> | Hne].
    + injection Hhit as ->. unfold mbind, Coro_bind. rewrite Hres.
      apply dispatch_items_miss. apply dict_lookup_None. exact Hfresh.
    + apply IH; assumption.
Qed.

(** C7.  The dispatcher handles an envelope that carries the correlation
    id [_uuid].  If the table binds the id to a pending operation, the
    operation is fulfilled: for an envelope of kind Error with a
    [ClientRuntimeError] that carries the payload, whatever the
    acceptance check says; for any other kind (Response and Ping among
    them) with the payload when the check accepts it and with a
    [CheckFailureError] when it does not.  If the table has no entry for
    the id, [UUIDNotFoundError] is raised and nothing changes. *)
Theorem dispatch_resolution (c : Client) (msg : WsMessage) (_uuid : string) :
  msg_uuid msg = Some _uuid ->
  dict_wf (listeners c) ->
  (forall check future,
     dict_lookup _uuid (listeners c) = Some (check, future) ->
     futures c !! future = Some fut_pending ->
     _dispatch msg c
       = (with_futures (<[future := resolution msg _uuid check]> (futures c)) c, inr tt) /\
     (msg_type msg = Payloads.error ->
        resolution msg _uuid check
          = fut_exception (mkExc ClientRuntimeError (msg_data msg))) /\
     (msg_type msg <> Payloads.error ->
        resolution msg _uuid check
          = if default (fun _ => true) check (msg_data msg)
            then fut_result (msg_data msg)
            else fut_exception
                   (mkExc CheckFailureError (VStr ("Check failed for UUID " +:+ _uuid))))) /\
  (dict_lookup _uuid (listeners c) = None ->
     fails_with (_dispatch msg c) c UUIDNotFoundError).
Proof.
  intros Huuid Hwf. split.
  - intros check future Hentry Hpending. split; [| split].
    + unfold _dispatch. rewrite Huuid. unfold mbind, Coro_bind.
      rewrite (dispatch_items_hit msg _uuid (listeners c) false (check, future) c _
                 Hwf Hentry (resolve_pending msg _uuid check future c Hpending)).
      reflexivity.
    + intros Hty. unfold resolution, is_type. rewrite Hty. reflexivity.
    + intros Hty. unfold resolution, is_type.
      rewrite bool_decide_eq_false_2 by exact Hty. reflexivity.
  - intros Hmiss. unfold _dispatch. rewrite Huuid. unfold mbind, Coro_bind.
    rewrite (dispatch_items_miss msg _uuid (listeners c) false c Hmiss).
    apply raise_fails_with.
Qed.

Lemma dispatch_resolution_witness :
  futures (_dispatch response_u1 client_waiting).1
    = [fut_result (VDict [("success", VBool true)])] /\
  futures (_dispatch error_u1 client_waiting).1
    = [fut_exception (mkExc ClientRuntimeError (VStr "boom"))] /\
  fails_with (_dispatch response_u1 client_authorized) client_authorized UUIDNotFoundError.
Proof.
  assert (Hwf : dict_wf (listeners client_waiting)) by (vm_compute; apply NoDup_singleton).
  split; [| split].
  - destruct (dispatch_resolution client_waiting response_u1 "u1" eq_refl Hwf) as [Hhit _].
    destruct (Hhit None 0 eq_refl eq_refl) as [-> _]. reflexivity.
  - destruct (dispatch_resolution client_waiting error_u1 "u1" eq_refl Hwf) as [Hhit _].
    destruct (Hhit None 0 eq_refl eq_refl) as [-> _]. reflexivity.
  - apply (dispatch_resolution client_authorized response_u1 "u1" eq_refl);
      [vm_compute; apply NoDup_nil_2 | reflexivity].
Defined.

(** ** A request for a route that is not registered (C1) *)

(** The unknown-route branch hands the "Route not found" envelope to the
    event loop, starts no handler, and leaves the receive loop by its
    [return]: the envelopes that follow are never read. *)
Lemma on_message_unknown_route (c : Client) (message : WsMessage)
    (incoming : list WsMessage) (closure : Closure) :
  msg_type message = Payloads.request ->
  (msg_route message ≫= (fun r => routes c !! r)) = None ->
  __on_message (message :: incoming) closure c
    = (with_tasks (tasks c ++ [task_send_message (route_not_found c message)]) c,
       loop_return incoming).
Proof.
  intros Hty Hroute. simpl. unfold on_message_body, is_type, in_routes.
  rewrite Hty. simpl.
  destruct (msg_route message) as [r |]; simpl in *; [rewrite Hroute |]; reflexivity.
Qed.

(** C1, at the failing input.  The transport delivers a request for the
    unregistered route ["nope"] and then a request for the registered
    route ["add"].  The client answers the first with "Route not found"
    under the id ["r1"] and invokes no handler, but the receive loop then
    returns with the second request unread: no task is made for it.  The
    same request alone is handed to the invoker. *)
Theorem unknown_route_ends_loop :
  __on_message [request_nope; request_add] closed_error server
    = (with_tasks [task_send_message
                     (mkPayload (Some Payloads.error) (Some "A") (Some "B") VNone
                                (VStr "Route not found") (Some "r1")
                                (Some "Route not found"))] server,
       loop_return [request_add]) /\
  tasks (__on_message [request_add] closed_error server).1
    = [task_fulfill_request request_add;
       task_event "on_winerp_request" None [];
       task_event "on_winerp_disconnect" None []] /\
  (__on_message [request_add] closed_error server).2 = loop_break.
Proof.
  split; [| split].
  - rewrite on_message_unknown_route; reflexivity.
  - reflexivity.
  - reflexivity.
Qed.

(** ** A ping that is not answered (C3) *)

Lemma ping_resume_timeout (aw : Awaitable) (c : Client) :
  futures c !! aw_future aw = Some fut_pending ->
  ping_resume aw c
    = (with_futures (<[aw_future aw := fut_cancelled]> (futures c)) c,
       inl (mkExc TimeoutError VNone)).
Proof.
  intros Hpending. unfold ping_resume, mbind, Coro_bind, wait_for.
  rewrite Hpending. reflexivity.
Qed.

(** C3, at the failing input.  An authorized client pings ["B"] with a
    timeout of one second: the Ping envelope is written and the caller
    waits on future [0].  No reply arrives, the timeout wakes the caller,
    and [ping] raises [TimeoutError] instead of returning [False].  When
    the reply does arrive first, [ping] returns its ["success"] field. *)
Theorem ping_timeout_raises :
  (ping (Some "B") 1 "p1" client_authorized).2 = inr (mkAwaitable 0 1) /\
  (websocket ping_sent ≫= (fun ws => last (ws_sent ws)))
    = Some (mkPayload (Some Payloads.ping) (Some "A") (Some "B") VNone VNone
                      (Some "p1") None) /\
  (ping_resume (mkAwaitable 0 1) ping_sent).2 = inl (mkExc TimeoutError VNone) /\
  (ping_resume (mkAwaitable 0 1)
     (_dispatch (msg_of Payloads.ping (Some "p1") (VDict [("success", VBool true)]))
                ping_sent).1).2
    = inr (VBool true).
Proof.
  repeat split; vm_compute; reflexivity.
Qed.

(** ** The reply of the request invoker (C6) *)

(** A handler that raises [SystemExit] is not caught by
    [except Exception]: the reply that the [finally] clause sends is a
    Response envelope with the empty payload, and the exception leaves
    the invoker. *)
Lemma handler_exit_escapes :
  ~ (forall (c : Client) (message : WsMessage) (r : string) (func : PyFunc) (e : PyExc),
       msg_route message = Some r ->
       routes c !! r = Some func ->
       call_kwargs func (msg_data message) = Raises e ->
       (_fulfill_request str_sample format_sample message c).2 = inr tt /\
       exists p,
         sends (tasks (_fulfill_request str_sample format_sample message c).1)
           = sends (tasks c) ++ [p] /\
         p_type p = Some Payloads.error).
Proof.
  intros Hspec.
  destruct (Hspec server_routes (request_for "quit" "r3") "quit" exit_handler
              (mkExc SystemExit (VInt 1)) eq_refl eq_refl eq_refl) as [Hesc _].
  vm_compute in Hesc. discriminate Hesc.
Qed.

Lemma sends_app (ts ts' : list Task) : sends (ts ++ ts') = sends ts ++ sends ts'.
Proof. unfold sends. apply omap_app. Qed.

Section InvokerReply.

Variable py_str : PyExc -> string.
Variable format_exception : PyExc -> list string.

Local Abbreviation is_error_reply := (is_error_reply py_str format_exception).

(** C6, amended.  For a request whose route is registered, on a client
    whose "error" handler (when one is registered) can be called with
    one argument, the invoker hands exactly one reply envelope to the
    event loop; it echoes the correlation id, names this client as
    sender and goes to the requester.  When the handler returns a result
    that JSON can encode, the reply is a Response envelope with that
    result.  When the handler raises an exception that derives from
    [Exception], or returns a result that JSON cannot encode, the reply
    is an Error envelope whose payload is [str] of the exception and
    whose trace is its formatted stack trace, and nothing escapes the
    invoker.  An exception that does not derive from [Exception]
    escapes the invoker, and the reply sent is the Response envelope
    with the empty payload. *)
Theorem fulfill_request_reply (c : Client) (message : WsMessage)
    (r : string) (func : PyFunc) :
  msg_route message = Some r ->
  routes c !! r = Some func ->
  can_call (get_event c "on_winerp_error") 1 = true ->
  let res := _fulfill_request py_str format_exception message c in
  exists p,
    sends (tasks res.1) = sends (tasks c) ++ [p] /\
    p_uuid p = msg_uuid message /\
    p_id p = Some (local_name c) /\
    p_destination p = msg_id message /\
    match call_kwargs func (msg_data message) with
    | Returns v =>
        match json_unserializable v with
        | None => res.2 = inr tt /\ p_type p = Some Payloads.response /\ p_data p = v
        | Some cls => res.2 = inr tt /\ is_error_reply p (not_serializable cls)
        end
    | Raises e =>
        if is_Exception (exc_class e)
        then res.2 = inr tt /\ is_error_reply p e
        else res.2 = inl e /\ p_type p = Some Payloads.response /\ p_data p = VDict []
    end.
Proof.
  intros Hroute Hfunc Herror. unfold _fulfill_request, try_handler, notify.
  rewrite Hroute. simpl. rewrite Hfunc, Herror.
  destruct (call_kwargs func (msg_data message)) as [v | e].
  - destruct (json_unserializable v) as [cls |]; simpl.
    + eexists. unfold __send_message, create_task. simpl.
      rewrite <- app_assoc, sends_app. simpl.
      repeat split; reflexivity.
    + eexists. unfold __send_message, create_task. simpl.
      rewrite sends_app. simpl. repeat split; reflexivity.
  - destruct (is_Exception (exc_class e)); simpl.
    + eexists. unfold __send_message, create_task. simpl.
      rewrite <- app_assoc, sends_app. simpl.
      repeat split; reflexivity.
    + eexists. unfold __send_message, create_task. simpl.
      rewrite sends_app. simpl. repeat split; reflexivity.
Qed.

End InvokerReply.

Lemma fulfill_request_reply_witness :
  exists p,
    sends (tasks (_fulfill_request str_sample format_sample
                    (request_for "fail" "r4") server_routes).1) = [p] /\
    p_uuid p = Some "r4" /\
    p_id p = Some "A" /\
    p_destination p = Some "B" /\
    (_fulfill_request str_sample format_sample (request_for "fail" "r4") server_routes).2
      = inr tt /\
    p_type p = Some Payloads.error /\
    p_data p = VStr "it broke".
Proof.
  destruct (fulfill_request_reply str_sample format_sample server_routes
              (request_for "fail" "r4") "fail" failing_handler eq_refl eq_refl eq_refl)
    as (p & Hsend & Huuid & Hid & Hdest & Hret & Hty & Hdata & _).
  exists p. repeat split; assumption.
Defined.

(** ** Authorization is never taken back (C10) *)

Lemma quiet_trans (c1 c2 c3 : Client) : quiet c1 c2 -> quiet c2 c3 -> quiet c1 c3.
Proof.
  intros (Ha & Hr & Hwf) (Ha' & Hr' & Hwf').
  split; [congruence | split; [congruence | auto]].
Qed.

(** The fields that [quiet] reads are the same terms on both sides. *)
Ltac frame := split; [reflexivity | split; [reflexivity | exact (fun H => H)]].

Lemma ready_count_create_task (t : Task) (c : Client) :
  ready_count (create_task t c)
    = ready_count c + (if is_ready_event t then 1 else 0).
Proof.
  unfold ready_count, create_task. simpl. rewrite filter_app, length_app.
  f_equal. rewrite filter_cons, filter_nil.
  destruct (is_ready_event t); reflexivity.
Qed.

Lemma quiet_create_task (t : Task) (c : Client) :
  is_ready_event t = false -> quiet c (create_task t c).
Proof.
  intros Ht. split; [reflexivity | split; [| exact (fun H => H)]].
  rewrite ready_count_create_task, Ht. lia.
Qed.

(** A notification other than "ready" is quiet, made or not. *)
Lemma quiet_notify (key : string) (args : list EventArg) (c : Client) :
  bool_decide (key = "on_winerp_ready") = false -> quiet c (notify key args c).1.
Proof.
  intros Hkey. unfold notify. destruct (can_call _ _); [| frame].
  apply quiet_create_task. exact Hkey.
Qed.

Ltac quiet_tasks :=
  repeat first
    [ frame
    | apply quiet_create_task; reflexivity
    | eapply quiet_trans; [| apply quiet_create_task; reflexivity] ].

Lemma quiet_send_message (data : MessagePayload) (c : Client) :
  quiet c (send_message data c).1.
Proof.
  unfold send_message.
  destruct (websocket c) as [ws |]; [| frame].
  destruct (payload_unserializable data); [frame |].
  destruct (ws_open ws); frame.
Qed.

Lemma quiet_get_response (_uuid : string) (timeout : Z) (c : Client) :
  quiet c (__get_response _uuid timeout c).1.
Proof.
  split; [reflexivity | split; [reflexivity | apply dict_setitem_wf]].
Qed.

Lemma quiet_wait_for (aw : Awaitable) (c : Client) : quiet c (wait_for aw c).1.
Proof.
  unfold wait_for. destruct (futures c !! aw_future aw) as [[] |]; frame.
Qed.

(** Sequencing two quiet computations is quiet. *)
Lemma quiet_bind {A B} (m : Coro A) (k : A -> Coro B) (c : Client) :
  quiet c (m c).1 ->
  (forall a c', quiet c' (k a c').1) ->
  quiet c ((m ≫= k) c).1.
Proof.
  intros Hm Hk. unfold mbind, Coro_bind.
  destruct (m c) as [c' [e | a]]; simpl in *; [exact Hm |].
  eapply quiet_trans; [exact Hm | apply Hk].
Qed.

Lemma quiet_set_outcome (future : nat) (o : Future) (c : Client) :
  quiet c (set_outcome future o c).1.
Proof.
  unfold set_outcome. destruct (futures c !! future) as [[] |]; frame.
Qed.

Lemma quiet_resolve (msg : WsMessage) (_uuid : string) (val : Listener) (c : Client) :
  quiet c (resolve msg _uuid val c).1.
Proof.
  unfold resolve, set_result, set_exception.
  destruct (negb _); [destruct (default _ _ _) |]; apply quiet_set_outcome.
Qed.

Lemma quiet_dispatch_items (msg : WsMessage) (_uuid : string)
    (items : list (string * Listener)) (found : bool) (c : Client) :
  quiet c (dispatch_items msg _uuid items found c).1.
Proof.
  revert found c. induction items as [| [key val] items IH]; intros found c; simpl.
  - frame.
  - destruct (decide (key = _uuid)) as [_ | _]; [| apply IH].
    apply quiet_bind; [apply quiet_resolve | intros; apply IH].
Qed.

Lemma quiet_dispatch (msg : WsMessage) (c : Client) : quiet c (_dispatch msg c).1.
Proof.
  unfold _dispatch. destruct (msg_uuid msg) as [_uuid |]; [| frame].
  apply quiet_bind; [apply quiet_dispatch_items |].
  intros [] c'; frame.
Qed.

Lemma quiet_start (connect : PyExc + unit) (_uuid : string) (c : Client) :
  quiet c (start connect _uuid c).1.
Proof.
  unfold start.
  destruct (match websocket c with Some ws => ws_closed ws | None => true end);
    [| frame].
  destruct connect as [e | []]; [frame |].
  apply quiet_bind; [frame | intros _ c1].
  apply quiet_bind; [apply quiet_notify; reflexivity | intros _ c2].
  apply quiet_bind; [apply quiet_send_message | intros _ c3].
  apply quiet_create_task; reflexivity.
Qed.

Lemma quiet_route (name : option string) (func : PyFunc) (c : Client) :
  quiet c (route name func c).1.
Proof.
  unfold route.
  destruct (match name with Some n => in_routes c n | None => in_routes c (__name__ func) end);
    [frame |].
  destruct (negb (iscoroutinefunction func)); frame.
Qed.

Lemma quiet_event (func : PyFunc) (c : Client) : quiet c (event func c).1.
Proof.
  unfold event. destruct (events c !! __name__ func); [| frame].
  destruct (negb (iscoroutinefunction func)); frame.
Qed.

Lemma quiet_ping (client : option string) (timeout : Z) (_uuid : string) (c : Client) :
  quiet c (ping client timeout _uuid c).1.
Proof.
  unfold ping.
  destruct (_on_hold c || negb (websocket_open c)); [frame |].
  destruct (negb (_authorized c)); [frame |].
  apply quiet_bind; [apply quiet_send_message | intros; apply quiet_get_response].
Qed.

Lemma quiet_request (r source : string) (timeout : Z) (kwargs : list (string * PyVal))
    (_uuid : string) (c : Client) :
  quiet c (request r source timeout kwargs _uuid c).1.
Proof.
  unfold request.
  destruct (websocket_open c); [| frame].
  destruct (_on_hold c); [frame |].
  destruct (negb (_authorized c)); [frame |].
  destruct (bool_decide (r = "") || bool_decide (source = "")); [frame |].
  apply quiet_bind; [apply quiet_send_message | intros; apply quiet_get_response].
Qed.

Lemma quiet_inform (data destinations : PyVal) (c : Client) :
  quiet c (inform data destinations c).1.
Proof.
  unfold inform.
  destruct (websocket_open c); [| frame].
  destruct (_on_hold c); [frame |].
  destruct (negb (_authorized c)); [frame |].
  apply quiet_bind; [| intros; apply quiet_send_message].
  unfold log_percent. destruct (percent_format destinations); frame.
Qed.

Lemma quiet_resume (aw : Awaitable) (c : Client) :
  quiet c (ping_resume aw c).1 /\ quiet c (request_resume aw c).1.
Proof.
  split; apply quiet_bind; try apply quiet_wait_for.
  - intros resp c'. destruct resp; frame.
  - intros; frame.
Qed.

Lemma quiet_on_closed (closure : Closure) (c : Client) : quiet c (on_closed closure c).1.
Proof.
  unfold on_closed, transport_closed, notify.
  destruct closure, (websocket c); simpl; try frame;
    destruct (can_call _ _); simpl; quiet_tasks.
Qed.

(** One pass of the receive loop is quiet, unless it takes the success
    branch: the client was not authorized, is authorized now, and one
    more "ready" notification has been made. *)
Lemma on_message_body_flags (message : WsMessage) (c : Client) :
  quiet c (on_message_body message c).1 \/
  (_authorized c = false /\
   _authorized (on_message_body message c).1 = true /\
   ready_count (on_message_body message c).1 = S (ready_count c) /\
   listeners (on_message_body message c).1 = listeners c).
Proof.
  open_body.
  destruct (is_type message Payloads.success && negb (_authorized c)) eqn:Hbranch.
  - apply andb_true_iff in Hbranch as [_ Hauth]. apply negb_true_iff in Hauth.
    destruct (can_call _ _); simpl; [right | left; frame].
    split; [exact Hauth | split; [reflexivity | split; [| reflexivity]]].
    change (ready_count (create_task
              (task_event "on_winerp_ready" (get_event c "on_winerp_ready") []) c)
            = S (ready_count c)).
    rewrite ready_count_create_task. simpl. lia.
  - left. repeat (case_match; simplify_eq/=); quiet_tasks.
Qed.

Section Lifetime.

Variable py_str : PyExc -> string.
Variable format_exception : PyExc -> list string.

Local Abbreviation step := (step py_str format_exception).
Local Abbreviation run := (run py_str format_exception).

Lemma quiet_fulfill_request (message : WsMessage) (c : Client) :
  quiet c (_fulfill_request py_str format_exception message c).1.
Proof.
  unfold _fulfill_request, __send_message, notify.
  destruct (msg_route message ≫= _) as [func |]; [| frame].
  destruct (try_handler _ _ _) as [payload [e |]]; simpl; [| quiet_tasks].
  destruct (is_Exception (exc_class e)); simpl; [| quiet_tasks].
  destruct (can_call _ _); simpl; quiet_tasks.
Qed.

Lemma step_flags (c : Client) (op : Op) :
  quiet c (step c op) \/
  (_authorized c = false /\ _authorized (step c op) = true /\
   ready_count (step c op) = S (ready_count c) /\
   listeners (step c op) = listeners c).
Proof.
  destruct op;
    [ left; apply quiet_start
    | left; apply quiet_route
    | left; apply quiet_event
    | left; apply quiet_ping
    | left; apply (proj1 (quiet_resume aw c))
    | left; apply quiet_request
    | left; apply (proj2 (quiet_resume aw c))
    | left; apply quiet_inform
    | left; apply quiet_get_response
    | left; apply quiet_send_message
    | apply on_message_body_flags
    | left; apply quiet_on_closed
    | left; apply quiet_fulfill_request
    | left; apply quiet_dispatch
    | left; simpl; destruct (websocket c); frame ].
Qed.

Lemma step_ready_once (c : Client) (op : Op) : ready_once c -> ready_once (step c op).
Proof.
  intros [Hle Hzero].
  destruct (step_flags c op) as [(Ha & Hr & _) | (Hunauth & Hauth & Hr & _)];
    unfold ready_once.
  - rewrite Ha, Hr. split; assumption.
  - rewrite Hauth, Hr, (Hzero Hunauth). split; [lia | discriminate].
Qed.

Lemma step_authorized (c : Client) (op : Op) :
  _authorized c = true -> _authorized (step c op) = true.
Proof.
  intros Hauth.
  destruct (step_flags c op) as [[Ha _] | (Hunauth & _)]; congruence.
Qed.

Lemma step_dict_wf (c : Client) (op : Op) :
  dict_wf (listeners c) -> dict_wf (listeners (step c op)).
Proof.
  intros Hwf.
  destruct (step_flags c op) as [(_ & _ & Hkeep) | (_ & _ & _ & Hsame)].
  - apply Hkeep, Hwf.
  - rewrite Hsame. exact Hwf.
Qed.

(** The correlation table of a client has distinct keys all its life. *)
Lemma run_dict_wf (ops : list Op) (name : string) (port : Z) :
  dict_wf (listeners (run (__init__ name port) ops)).
Proof.
  assert (Hinv : forall c, dict_wf (listeners c) -> dict_wf (listeners (run c ops))).
  { unfold run. induction ops as [| op ops IH]; intros c Hc; simpl; [exact Hc |].
    apply IH, step_dict_wf, Hc. }
  apply Hinv. apply NoDup_nil_2.
Qed.

(** C10.  Whatever happens to a client, in any order (calls of its
    methods, envelopes received, tasks run by the event loop, the
    connection closing and the disconnect path of the receive loop,
    a new [start]), a client that is authorized stays authorized:
    [authorized] returns [True] ever after.  Counted from the creation
    of the client, the success branch of the receive loop, and with it
    the "ready" notification, runs at most once. *)
Theorem authorized_is_monotone (ops : list Op) :
  (forall c, authorized c = true -> authorized (run c ops) = true) /\
  (forall name port, ready_count (run (__init__ name port) ops) <= 1).
Proof.
  split.
  - unfold authorized, run.
    induction ops as [| op ops IH]; intros c Hauth; simpl; [exact Hauth |].
    apply IH, step_authorized, Hauth.
  - intros name port.
    assert (Hinv : forall c, ready_once c -> ready_once (run c ops)).
    { unfold run. induction ops as [| op ops IH]; intros c Hc; simpl; [exact Hc |].
      apply IH, step_ready_once, Hc. }
    apply (Hinv (__init__ name port)). split; [| intros _]; vm_compute; lia.
Qed.

End Lifetime.

Lemma authorized_is_monotone_witness :
  authorized (run str_sample format_sample client_authorized sample_life) = true /\
  ready_count (run str_sample format_sample (__init__ "A" 13254) sample_life) <= 1.
Proof.
  destruct (authorized_is_monotone str_sample format_sample sample_life) as [Hmono Honce].
  split.
  - apply Hmono. reflexivity.
  - apply Honce.
Defined.

(** * Further properties of the client *)

(** ** Writing to the connection *)

Lemma send_message_ok (data : MessagePayload) (ws : WebSocket) (c : Client) :
  websocket c = Some ws -> ws_open ws = true -> payload_unserializable data = None ->
  send_message data c = (wrote data ws c, inr tt).
Proof.
  intros Hws Hopen Hser. unfold send_message. rewrite Hws, Hser, Hopen. reflexivity.
Qed.

Lemma send_message_fail (data : MessagePayload) (c : Client) (e : PyExc) :
  (send_message data c).2 = inl e -> (send_message data c).1 = c.
Proof.
  unfold send_message. destruct (websocket c) as [ws |]; [| reflexivity].
  destruct (payload_unserializable data); [reflexivity |].
  destruct (ws_open ws); [discriminate | reflexivity].
Qed.

(** X1.  [send_message] succeeds exactly when the client has a connection that
    is open and JSON can encode the payload; it then appends the payload
    to what the connection has sent and changes nothing else.  In every
    other case it raises and the client is unchanged: an object that JSON
    cannot encode is never written, even on an open connection. *)
Theorem send_message_appends_or_fails (data : MessagePayload) (c : Client) :
  ((send_message data c).2 = inr tt <->
     (exists ws, websocket c = Some ws /\ ws_open ws = true) /\
     payload_unserializable data = None) /\
  (forall ws, websocket c = Some ws -> (send_message data c).2 = inr tt ->
     (send_message data c).1 = wrote data ws c) /\
  ((send_message data c).2 <> inr tt -> (send_message data c).1 = c).
Proof.
  unfold send_message. destruct (websocket c) as [ws |] eqn:Hws; simpl.
  - destruct (payload_unserializable data) as [cls |] eqn:Hser; simpl.
    + split; [split; [discriminate | intros [_ H]; discriminate] |].
      split; [discriminate | reflexivity].
    + destruct (ws_open ws) eqn:Hopen; simpl.
      * split; [split; [intros _; split; [exists ws; split |]; auto | reflexivity] |].
        split; [intros ws' [= <-] _; reflexivity | intros H; contradiction H; reflexivity].
      * split; [split; [discriminate | intros [(ws' & [= <-] & H) _]; congruence] |].
        split; [discriminate | reflexivity].
  - split; [split; [discriminate | intros [(ws' & H & _) _]; discriminate] |].
    split; [discriminate | reflexivity].
Qed.

Lemma send_message_appends_or_fails_witness :
  (send_message (ping_payload client_authorized (Some "B") "p1") client_authorized).1
    = wrote (ping_payload client_authorized (Some "B") "p1") ws_one client_authorized /\
  (send_message (ping_payload client_A (Some "B") "p1") client_A).1 = client_A.
Proof.
  split.
  - apply (proj1 (proj2 (send_message_appends_or_fails _ client_authorized)) ws_one);
      reflexivity.
  - apply (proj2 (proj2 (send_message_appends_or_fails _ client_A))). discriminate.
Defined.

(** ** Starting the client *)

(** X2.  [start] on a client whose connection exists and is not closed (open,
    or still closing) raises [ConnectionError]; when
    [websockets.connect] raises, [start] raises the same exception.  In
    both cases the client is unchanged. *)
Theorem start_refused_or_failed (c : Client) (_uuid : string) :
  (forall ws connect, websocket c = Some ws -> ws_closed ws = false ->
     start connect _uuid c
       = (c, inl (mkExc ConnectionError (VStr "Websocket is already connected!")))) /\
  (forall e, (match websocket c with Some ws => ws_closed ws | None => true end) = true ->
     start (inl e) _uuid c = (c, inl e)).
Proof.
  split.
  - intros ws connect Hws Hclosed. unfold start. rewrite Hws, Hclosed. reflexivity.
  - intros e Hfree. unfold start. rewrite Hfree. reflexivity.
Qed.

Lemma start_refused_or_failed_witness :
  start (inr tt) "v2" client_connected
    = (client_connected, inl (mkExc ConnectionError (VStr "Websocket is already connected!"))) /\
  start (inl (mkExc ConnectionError (VStr "refused"))) "v1" client_A
    = (client_A, inl (mkExc ConnectionError (VStr "refused"))).
Proof.
  split.
  - apply (proj1 (start_refused_or_failed client_connected "v2") ws_one); reflexivity.
  - apply (proj2 (start_refused_or_failed client_A "v1")). reflexivity.
Defined.

(** X3.  [start] on a client with no connection, or with a closed one, once
    [websockets.connect] has succeeded.  When the "connect" handler (if
    one is registered) can be called without arguments, the client
    holds a new open connection on which exactly one envelope has been
    written, the Verification envelope with the client's name and the
    fresh id; the "connected" notification and then the receive loop
    have been handed to the event loop.  Nothing else changes: a restart
    keeps the routes, the correlation table, and the authorization and
    hold flags.  When the handler cannot be called so, [start] raises
    [TypeError] with the new connection in place and nothing written on
    it. *)
Theorem start_handshake (c : Client) (_uuid : string) :
  (match websocket c with Some ws => ws_closed ws | None => true end) = true ->
  (can_call (get_event c "on_winerp_connect") 0 = true ->
     start (inr tt) _uuid c
       = (with_tasks (tasks c ++ [task_event "on_winerp_connect"
                                             (get_event c "on_winerp_connect") [];
                                  task_on_message])
            (with_websocket (Some (mkWs OPEN [verification_payload c _uuid])) c),
          inr tt)) /\
  (can_call (get_event c "on_winerp_connect") 0 = false ->
     (start (inr tt) _uuid c).1 = with_websocket (Some (mkWs OPEN [])) c /\
     exists e, (start (inr tt) _uuid c).2 = inl e /\ exc_class e = TypeError).
Proof.
  intros Hfree. unfold start. rewrite Hfree.
  unfold mbind, Coro_bind, modify, notify, create_task, send_message, raise.
  change (get_event (with_websocket (Some (mkWs OPEN [])) c) "on_winerp_connect")
    with (get_event c "on_winerp_connect").
  split; intros Hcall; simpl; rewrite Hcall; simpl.
  - rewrite <- app_assoc. reflexivity.
  - split; [reflexivity | eexists; split; reflexivity].
Qed.

Lemma start_handshake_witness :
  (websocket (start (inr tt) "v1" client_A).1 ≫= (fun ws => Some (ws_sent ws)))
    = Some [verification_payload client_A "v1"] /\
  (start (inr tt) "v1" client_A).2 = inr tt.
Proof.
  rewrite (proj1 (start_handshake client_A "v1" eq_refl) eq_refl). split; reflexivity.
Defined.

(** ** Registering routes and events *)

(** X4.  Registering a coroutine function under a name the registry does not
    hold (the explicit name, which is not empty, or the function's own
    name) succeeds and returns the function: the name now maps to it and
    every other name maps to what it mapped to before. *)
Theorem route_registers (c : Client) (name : option string) (func : PyFunc) :
  name <> Some "" ->
  routes c !! route_key name func = None ->
  iscoroutinefunction func = true ->
  (route name func c).2 = inr func /\
  routes (route name func c).1 !! route_key name func = Some func /\
  (forall k, k <> route_key name func ->
     routes (route name func c).1 !! k = routes c !! k).
Proof.
  intros Hname Hfresh Hcoro.
  assert (Hkey : match name with Some n => n | None => __name__ func end
                 = route_key name func).
  { unfold route_key. destruct name as [n |]; [| reflexivity].
    destruct (decide (n = "")) as [-> | _]; [contradiction Hname |]; reflexivity. }
  pose proof Hfresh as Hfresh'. rewrite <- Hkey in Hfresh'.
  unfold route, in_routes.
  destruct name as [n |]; rewrite Hfresh', Hcoro; simpl;
    (split; [reflexivity | split;
      [apply lookup_insert_eq | intros k Hk; apply lookup_insert_ne; congruence]]).
Qed.

Lemma route_registers_witness :
  (route (Some "sum") add_handler client_with_add).2 = inr add_handler /\
  routes (route (Some "sum") add_handler client_with_add).1 !! "sum" = Some add_handler /\
  routes (route (Some "sum") add_handler client_with_add).1 !! "add" = Some add_handler.
Proof.
  destruct (route_registers client_with_add (Some "sum") add_handler)
    as (Hret & Hnew & Hother); [discriminate | reflexivity | reflexivity |].
  split; [exact Hret | split; [exact Hnew |]].
  rewrite Hother by discriminate. reflexivity.
Defined.

(** X5.  The duplicate check tests the explicit name, the registration uses
    [name or func.__name__]: with the explicit name [""] the check looks
    for the empty name, and the function is stored under its own name.
    A route already registered under that name is replaced without an
    error. *)
Theorem route_empty_name_replaces (c : Client) (func first : PyFunc) :
  routes c !! "" = None ->
  routes c !! __name__ func = Some first ->
  iscoroutinefunction func = true ->
  (route (Some "") func c).2 = inr func /\
  routes (route (Some "") func c).1 !! __name__ func = Some func.
Proof.
  intros Hempty Hfirst Hcoro. unfold route, in_routes, route_key.
  rewrite Hempty, Hcoro. simpl. split; [reflexivity | apply lookup_insert_eq].
Qed.

Lemma route_empty_name_replaces_witness :
  (route (Some "") other_add client_with_add).2 = inr other_add /\
  routes (route (Some "") other_add client_with_add).1 !! "add" = Some other_add.
Proof.
  apply (route_empty_name_replaces client_with_add other_add add_handler); reflexivity.
Defined.

(** X6.  Registering a function that is not a coroutine function under a name
    that is free raises [InvalidRouteType] and leaves the client
    unchanged. *)
Theorem route_rejects_plain_function (c : Client) (name : option string) (func : PyFunc) :
  routes c !! (match name with Some n => n | None => __name__ func end) = None ->
  iscoroutinefunction func = false ->
  route name func c
    = (c, inl (mkExc InvalidRouteType (VStr "Route function must be a coro."))).
Proof.
  intros Hfree Hcoro. unfold route, in_routes.
  destruct name as [n |]; rewrite Hfree, Hcoro; reflexivity.
Qed.

Lemma route_rejects_plain_function_witness :
  route None not_a_coroutine client_with_add
    = (client_with_add, inl (mkExc InvalidRouteType (VStr "Route function must be a coro."))).
Proof.
  apply route_rejects_plain_function; reflexivity.
Defined.

(** X7.  [event] accepts a coroutine function whose name is a key of the event
    table: afterwards [get_event] gives that function for the name,
    whatever was registered before, and gives what it gave before for
    every other name.  A name that is not a key raises [NameError], a
    function that is not a coroutine function raises [TypeError]; in both
    cases the client is unchanged. *)
Theorem event_registration (c : Client) (func : PyFunc) :
  (is_Some (events c !! __name__ func) -> iscoroutinefunction func = true ->
     (event func c).2 = inr func /\
     get_event (event func c).1 (__name__ func) = Some func /\
     (forall k, k <> __name__ func -> get_event (event func c).1 k = get_event c k)) /\
  (events c !! __name__ func = None -> fails_with (event func c) c NameError) /\
  (is_Some (events c !! __name__ func) -> iscoroutinefunction func = false ->
     fails_with (event func c) c TypeError).
Proof.
  unfold event. split; [| split].
  - intros [old Hold] Hcoro. rewrite Hold, Hcoro. simpl.
    split; [reflexivity | split].
    + unfold get_event. simpl. rewrite lookup_insert_eq. reflexivity.
    + intros k Hk. unfold get_event. simpl.
      rewrite lookup_insert_ne by congruence. reflexivity.
  - intros ->. apply raise_fails_with.
  - intros [old ->] ->. apply raise_fails_with.
Qed.

Lemma event_registration_witness :
  get_event (event on_winerp_ready_handler client_A).1 "on_winerp_ready"
    = Some on_winerp_ready_handler /\
  fails_with (event add_handler client_A) client_A NameError.
Proof.
  destruct (event_registration client_A on_winerp_ready_handler) as [Hok _].
  destruct (event_registration client_A add_handler) as (_ & Hname & _).
  split.
  - destruct Hok as (_ & Hget & _); [vm_compute; eauto | reflexivity | exact Hget].
  - apply Hname. reflexivity.
Defined.

(** ** Calls up to the point where they suspend *)

Lemma send_message_cases (data : MessagePayload) (c : Client) :
  (exists e, send_message data c = (c, inl e)) \/
  (exists ws, websocket c = Some ws /\ send_message data c = (wrote data ws c, inr tt)).
Proof.
  unfold send_message, raise, reraise. destruct (websocket c) as [ws |]; [| eauto].
  destruct (payload_unserializable data); [eauto |].
  destruct (ws_open ws); [right; exists ws; split; reflexivity | eauto].
Qed.

(** X9.  Up to the point where it suspends on the reply, a call of
    [request] or [ping] has done all or nothing: either it has raised
    (at the gate, on an empty route or source, on a payload that JSON
    cannot encode, on a connection that refuses the write) and the
    client is exactly as it was, or it has written exactly its one
    envelope and registered one pending operation under its id, on a
    fresh future, which is the one it waits for.  [inform] likewise has
    either raised with the client unchanged or written exactly its one
    envelope.  (What a call raises after it has suspended, a timeout or
    a remote error, comes after the envelope and the registration.) *)
Theorem call_is_all_or_nothing (c : Client) :
  (forall r src t kw u,
     match (request r src t kw u c).2 with
     | inl _ => (request r src t kw u c).1 = c
     | inr aw =>
         aw = mkAwaitable (length (futures c)) t /\
         exists ws, websocket c = Some ws /\
           (request r src t kw u c).1
             = registered u (wrote (request_payload c r src kw u) ws c)
     end) /\
  (forall cl t u,
     match (ping cl t u c).2 with
     | inl _ => (ping cl t u c).1 = c
     | inr aw =>
         aw = mkAwaitable (length (futures c)) t /\
         exists ws, websocket c = Some ws /\
           (ping cl t u c).1 = registered u (wrote (ping_payload c cl u) ws c)
     end) /\
  (forall d ds,
     match (inform d ds c).2 with
     | inl _ => (inform d ds c).1 = c
     | inr _ =>
         exists ws, websocket c = Some ws /\
           (inform d ds c).1 = wrote (information_payload c d ds) ws c
     end).
Proof.
  split; [| split].
  - intros r src t kw u. unfold request.
    destruct (websocket_open c); [| reflexivity].
    destruct (_on_hold c); [reflexivity |].
    destruct (negb (_authorized c)); [reflexivity |].
    destruct (bool_decide (r = "") || bool_decide (src = "")); [reflexivity |].
    unfold mbind, Coro_bind.
    destruct (send_message_cases (request_payload c r src kw u) c)
      as [[e He] | (ws & Hws & Hsent)]; unfold request_payload in *.
    + rewrite He. reflexivity.
    + rewrite Hsent. simpl. split; [reflexivity | exists ws; split; [exact Hws | reflexivity]].
  - intros cl t u. unfold ping.
    destruct (_on_hold c || negb (websocket_open c)); [reflexivity |].
    destruct (negb (_authorized c)); [reflexivity |].
    unfold mbind, Coro_bind.
    destruct (send_message_cases (ping_payload c cl u) c)
      as [[e He] | (ws & Hws & Hsent)]; unfold ping_payload in *.
    + rewrite He. reflexivity.
    + rewrite Hsent. simpl. split; [reflexivity | exists ws; split; [exact Hws | reflexivity]].
  - intros d ds. unfold inform.
    destruct (websocket_open c); [| reflexivity].
    destruct (_on_hold c); [reflexivity |].
    destruct (negb (_authorized c)); [reflexivity |].
    unfold mbind, Coro_bind, log_percent, reraise.
    destruct (percent_format ds); [reflexivity |].
    destruct (send_message_cases (information_payload c d ds) c)
      as [[e He] | (ws & Hws & Hsent)]; unfold information_payload, as_list in *.
    + rewrite He. reflexivity.
    + rewrite Hsent. simpl. exists ws. split; [exact Hws | reflexivity].
Qed.

(** ** Calls that go out *)

Lemma ready_open (c : Client) (ws : WebSocket) : ready c ws -> websocket_open c = true.
Proof. intros (Hws & Hopen & _). unfold websocket_open. rewrite Hws. exact Hopen. Qed.

(** X10.  [inform] on a client that is ready.  Its log statement formats
    the destinations with [%], so a tuple that does not hold exactly one
    value raises [TypeError] before anything is written.  Otherwise,
    with a payload and destinations that JSON can encode, exactly one
    Information envelope is written, with the client's name, no
    correlation id, and the destinations as a list: a list as it is, any
    other value (a one-element tuple included) as a list of one element.
    Nothing else changes: no pending operation is registered. *)
Theorem inform_sends (c : Client) (ws : WebSocket) (data destinations : PyVal) :
  ready c ws ->
  (percent_format destinations = None ->
   json_unserializable (as_list destinations) = None ->
   json_unserializable data = None ->
   inform data destinations c
     = (wrote (information_payload c data destinations) ws c, inr tt)) /\
  (forall e, percent_format destinations = Some e ->
     inform data destinations c = (c, inl e) /\ exc_class e = TypeError).
Proof.
  intros Hready. pose proof (ready_open c ws Hready) as Hopen.
  destruct Hready as (Hws & Hwsopen & Hhold & Hauth).
  unfold inform. rewrite Hopen, Hhold, Hauth. simpl.
  unfold mbind, Coro_bind, log_percent, reraise. split.
  - intros Hfmt Hdest Hdata. rewrite Hfmt.
    apply send_message_ok; [exact Hws | exact Hwsopen |].
    unfold payload_unserializable, information_payload, as_list in *. simpl.
    rewrite Hdest. exact Hdata.
  - intros e Hfmt. rewrite Hfmt. split; [reflexivity |].
    unfold percent_format in Hfmt.
    destruct destinations as [| | | | | l | |]; try discriminate.
    destruct l as [| x [| y l]]; try discriminate; injection Hfmt as <-; reflexivity.
Qed.

Lemma inform_sends_witness :
  inform (VStr "hello") (VStr "B") client_authorized
    = (wrote (mkPayload (Some Payloads.information) (Some "A") None (VList [VStr "B"])
                        (VStr "hello") None None) ws_one client_authorized,
       inr tt) /\
  (inform (VStr "hello") (VTuple [VStr "B"; VStr "C"]) client_authorized).1
    = client_authorized.
Proof.
  assert (Hready : ready client_authorized ws_one) by (repeat split; reflexivity).
  split.
  - apply (proj1 (inform_sends client_authorized ws_one (VStr "hello") (VStr "B") Hready));
      reflexivity.
  - destruct (proj2 (inform_sends client_authorized ws_one (VStr "hello")
                       (VTuple [VStr "B"; VStr "C"]) Hready) _ eq_refl) as [-> _].
    reflexivity.
Defined.

Lemma request_ok (c : Client) (ws : WebSocket) (r src : string) (t : Z)
    (kw : list (string * PyVal)) (u : string) :
  ready c ws -> r <> "" -> src <> "" -> json_unserializable (VDict kw) = None ->
  request r src t kw u c
    = (registered u (wrote (request_payload c r src kw u) ws c),
       inr (mkAwaitable (length (futures c)) t)).
Proof.
  intros Hready Hr Hsrc Hkw. pose proof (ready_open c ws Hready) as Hopen.
  destruct Hready as (Hws & Hwsopen & Hhold & Hauth).
  unfold request. rewrite Hopen, Hhold, Hauth. simpl.
  rewrite !bool_decide_eq_false_2 by assumption. simpl.
  unfold mbind, Coro_bind.
  change (mkPayload (Some Payloads.request) (Some (local_name c)) (Some src) (VStr r)
                    (VDict kw) (Some u) None)
    with (request_payload c r src kw u).
  rewrite (send_message_ok _ ws c Hws Hwsopen); [reflexivity |].
  unfold payload_unserializable. simpl p_route. simpl p_data. exact Hkw.
Qed.

Lemma ping_ok (c : Client) (ws : WebSocket) (cl : option string) (t : Z) (u : string) :
  ready c ws ->
  ping cl t u c
    = (registered u (wrote (ping_payload c cl u) ws c),
       inr (mkAwaitable (length (futures c)) t)).
Proof.
  intros Hready. pose proof (ready_open c ws Hready) as Hopen.
  destruct Hready as (Hws & Hwsopen & Hhold & Hauth).
  unfold ping. rewrite Hopen, Hhold, Hauth. simpl.
  unfold mbind, Coro_bind.
  change (mkPayload (Some Payloads.ping) (Some (local_name c)) cl VNone VNone (Some u) None)
    with (ping_payload c cl u).
  rewrite (send_message_ok _ ws c Hws Hwsopen); reflexivity.
Qed.

Lemma dispatch_hit (c : Client) (msg : WsMessage) (u : string)
    (check : option (PyVal -> bool)) (future : nat) :
  msg_uuid msg = Some u ->
  dict_wf (listeners c) ->
  dict_lookup u (listeners c) = Some (check, future) ->
  futures c !! future = Some fut_pending ->
  _dispatch msg c
    = (with_futures (<[future := resolution msg u check]> (futures c)) c, inr tt).
Proof.
  intros Huuid Hwf Hentry Hpending.
  unfold _dispatch. rewrite Huuid. unfold mbind, Coro_bind.
  rewrite (dispatch_items_hit msg u (listeners c) false (check, future) c _
             Hwf Hentry (resolve_pending msg u check future c Hpending)).
  reflexivity.
Qed.

Lemma resolution_reply (msg : WsMessage) (u : string) :
  msg_type msg <> Payloads.error ->
  resolution msg u None = fut_result (msg_data msg).
Proof.
  intros Hty. unfold resolution, is_type.
  rewrite bool_decide_eq_false_2 by exact Hty. reflexivity.
Qed.

Lemma resolution_error (msg : WsMessage) (u : string) (check : option (PyVal -> bool)) :
  msg_type msg = Payloads.error ->
  resolution msg u check = fut_exception (mkExc ClientRuntimeError (msg_data msg)).
Proof. intros Hty. unfold resolution, is_type. rewrite Hty. reflexivity. Qed.

Lemma wait_for_done (c : Client) (f : nat) (t : Z) (x : Future) :
  futures c !! f = Some x ->
  wait_for (mkAwaitable f t) c
    = match x with
      | fut_result v => (c, inr v)
      | fut_exception e => (c, inl e)
      | fut_cancelled => (c, inl (mkExc CancelledError VNone))
      | fut_pending =>
          (with_futures (<[f := fut_cancelled]> (futures c)) c,
           inl (mkExc TimeoutError VNone))
      end.
Proof. intros Hx. unfold wait_for. simpl. rewrite Hx. destruct x; reflexivity. Qed.

(** The state right after a pending operation has been registered under
    [u] on a table with distinct keys. *)
Lemma registered_pending (u : string) (c : Client) :
  dict_wf (listeners c) ->
  dict_wf (listeners (registered u c)) /\
  dict_lookup u (listeners (registered u c)) = Some (None, length (futures c)) /\
  futures (registered u c) !! length (futures c) = Some fut_pending.
Proof.
  intros Hwf. unfold registered. simpl. split; [| split].
  - apply dict_setitem_wf, Hwf.
  - apply dict_lookup_setitem.
  - apply list_lookup_middle. reflexivity.
Qed.

(** X11.  A request and its reply.  On a client that is ready, [request] with a
    route and a source that are not empty and keyword arguments that JSON
    can encode suspends on a fresh future.  If the dispatcher then
    handles an envelope with the same correlation id, the caller is woken
    with the payload of that envelope: returned when the envelope is not
    of kind Error, raised inside a [ClientRuntimeError] when it is.  If
    the caller is woken before any such envelope, [request] raises
    [TimeoutError]. *)
Theorem request_round_trip (c : Client) (ws : WebSocket) (r src : string) (t : Z)
    (kw : list (string * PyVal)) (u : string) (msg : WsMessage) :
  ready c ws -> r <> "" -> src <> "" -> json_unserializable (VDict kw) = None ->
  dict_wf (listeners c) ->
  msg_uuid msg = Some u ->
  let aw := mkAwaitable (length (futures c)) t in
  let c1 := (request r src t kw u c).1 in
  (request r src t kw u c).2 = inr aw /\
  (request_resume aw c1).2 = inl (mkExc TimeoutError VNone) /\
  (msg_type msg <> Payloads.error ->
     (request_resume aw (_dispatch msg c1).1).2 = inr (msg_data msg)) /\
  (msg_type msg = Payloads.error ->
     (request_resume aw (_dispatch msg c1).1).2
       = inl (mkExc ClientRuntimeError (msg_data msg))).
Proof.
  intros Hready Hr Hsrc Hkw Hwf Huuid. simpl.
  rewrite (request_ok c ws r src t kw u Hready Hr Hsrc Hkw). simpl.
  set (c0 := wrote (request_payload c r src kw u) ws c).
  destruct (registered_pending u c0 Hwf) as (Hwf1 & Hentry & Hpending).
  change (length (futures c0)) with (length (futures c)) in *.
  assert (Hdone : forall x,
            futures (with_futures (<[length (futures c) := x]> (futures (registered u c0)))
                                  (registered u c0))
              !! length (futures c) = Some x).
  { intros x. simpl. apply list_lookup_insert_eq.
    rewrite length_app. simpl. unfold c0. simpl. lia. }
  split; [reflexivity | split; [| split]].
  - unfold request_resume, mbind, Coro_bind.
    rewrite (wait_for_done _ _ _ _ Hpending). reflexivity.
  - intros Hty. rewrite (dispatch_hit _ msg u None _ Huuid Hwf1 Hentry Hpending).
    unfold request_resume, mbind, Coro_bind. simpl fst.
    rewrite (wait_for_done _ _ _ _ (Hdone _)), (resolution_reply msg u Hty). reflexivity.
  - intros Hty. rewrite (dispatch_hit _ msg u None _ Huuid Hwf1 Hentry Hpending).
    unfold request_resume, mbind, Coro_bind. simpl fst.
    rewrite (wait_for_done _ _ _ _ (Hdone _)), (resolution_error msg u None Hty).
    reflexivity.
Qed.

Lemma request_round_trip_witness :
  (request_resume (mkAwaitable 0 60)
     (_dispatch response_u1 (request "add" "B" 60 [("x", VInt 2)] "u1" client_authorized).1).1).2
    = inr (VDict [("success", VBool true)]).
Proof.
  apply (request_round_trip client_authorized ws_one "add" "B" 60 [("x", VInt 2)] "u1"
           response_u1).
  - repeat split; reflexivity.
  - discriminate.
  - discriminate.
  - reflexivity.
  - apply NoDup_nil_2.
  - reflexivity.
  - discriminate.
Defined.

(** X12.  A ping and its reply.  On a client that is ready, [ping] writes a
    Ping envelope and suspends on a fresh future.  When an envelope that
    is not of kind Error comes back under the same correlation id, [ping]
    returns the ["success"] field of its payload, or [False] when the
    payload is a dict without that field; when the payload is not a dict,
    [ping] raises [AttributeError]. *)
Theorem ping_round_trip (c : Client) (ws : WebSocket) (cl : option string) (t : Z)
    (u : string) (msg : WsMessage) :
  ready c ws ->
  dict_wf (listeners c) ->
  msg_uuid msg = Some u ->
  msg_type msg <> Payloads.error ->
  let aw := mkAwaitable (length (futures c)) t in
  let c1 := (ping cl t u c).1 in
  (ping cl t u c).2 = inr aw /\
  (websocket c1 ≫= (fun ws => last (ws_sent ws))) = Some (ping_payload c cl u) /\
  (ping_resume aw (_dispatch msg c1).1).2
    = match msg_data msg with
      | VDict d => inr (default (VBool false) (dict_get d "success"))
      | _ => inl (mkExc AttributeError (VStr "object has no attribute 'get'"))
      end.
Proof.
  intros Hready Hwf Huuid Hty. simpl.
  rewrite (ping_ok c ws cl t u Hready). simpl.
  set (c0 := wrote (ping_payload c cl u) ws c).
  destruct (registered_pending u c0 Hwf) as (Hwf1 & Hentry & Hpending).
  change (length (futures c0)) with (length (futures c)) in *.
  split; [reflexivity | split].
  - rewrite last_snoc. reflexivity.
  - rewrite (dispatch_hit _ msg u None _ Huuid Hwf1 Hentry Hpending).
    unfold ping_resume, mbind, Coro_bind. simpl fst.
    rewrite (wait_for_done _ (length (futures c)) t (fut_result (msg_data msg))).
    + destruct (msg_data msg); reflexivity.
    + simpl. rewrite (resolution_reply msg u Hty). apply list_lookup_insert_eq.
      rewrite length_app. simpl. unfold c0. simpl. lia.
Qed.

Lemma ping_round_trip_witness :
  (ping_resume (mkAwaitable 0 1)
     (_dispatch (msg_of Payloads.ping (Some "p1") (VDict [])) ping_sent).1).2
    = inr (VBool false).
Proof.
  apply (ping_round_trip client_authorized ws_one (Some "B") 1 "p1"
           (msg_of Payloads.ping (Some "p1") (VDict []))).
  - repeat split; reflexivity.
  - apply NoDup_nil_2.
  - reflexivity.
  - discriminate.
Defined.

Lemma ready_wrote_registered (c : Client) (ws : WebSocket) (data : MessagePayload)
    (u : string) :
  ready c ws ->
  ready (registered u (wrote data ws c)) (mkWs (ws_state ws) (ws_sent ws ++ [data])).
Proof.
  intros (Hws & Hopen & Hhold & Hauth).
  split; [reflexivity | split; [exact Hopen | split; assumption]].
Qed.

(** X13.  Two requests under different correlation ids, answered in the reverse
    order: each caller is woken with the payload of the envelope that
    carries its own id. *)
Theorem replies_matched_by_id (c : Client) (ws : WebSocket)
    (r1 src1 r2 src2 : string) (t1 t2 : Z) (kw1 kw2 : list (string * PyVal))
    (u1 u2 : string) (m1 m2 : WsMessage) :
  ready c ws -> dict_wf (listeners c) ->
  r1 <> "" -> src1 <> "" -> json_unserializable (VDict kw1) = None ->
  r2 <> "" -> src2 <> "" -> json_unserializable (VDict kw2) = None ->
  u1 <> u2 ->
  msg_uuid m1 = Some u1 -> msg_type m1 <> Payloads.error ->
  msg_uuid m2 = Some u2 -> msg_type m2 <> Payloads.error ->
  let c1 := (request r1 src1 t1 kw1 u1 c).1 in
  let c2 := (request r2 src2 t2 kw2 u2 c1).1 in
  let c4 := (_dispatch m1 (_dispatch m2 c2).1).1 in
  (request r1 src1 t1 kw1 u1 c).2 = inr (mkAwaitable (length (futures c)) t1) /\
  (request r2 src2 t2 kw2 u2 c1).2 = inr (mkAwaitable (S (length (futures c))) t2) /\
  (request_resume (mkAwaitable (length (futures c)) t1) c4).2 = inr (msg_data m1) /\
  (request_resume (mkAwaitable (S (length (futures c))) t2) c4).2 = inr (msg_data m2).
Proof.
  intros Hready Hwf Hr1 Hs1 Hk1 Hr2 Hs2 Hk2 Hne Hu1 Hty1 Hu2 Hty2. simpl.
  rewrite (request_ok c ws r1 src1 t1 kw1 u1 Hready Hr1 Hs1 Hk1). simpl fst. simpl snd.
  set (p1 := request_payload c r1 src1 kw1 u1).
  set (c1 := registered u1 (wrote p1 ws c)).
  pose proof (ready_wrote_registered c ws p1 u1 Hready) as Hready1. fold c1 in Hready1.
  destruct (registered_pending u1 (wrote p1 ws c) Hwf) as (Hwf1 & Hentry1 & Hpending1).
  fold c1 in Hwf1, Hentry1, Hpending1.
  change (length (futures (wrote p1 ws c))) with (length (futures c)) in *.
  rewrite (request_ok c1 _ r2 src2 t2 kw2 u2 Hready1 Hr2 Hs2 Hk2). simpl fst. simpl snd.
  set (p2 := request_payload c1 r2 src2 kw2 u2).
  set (c2 := registered u2 (wrote p2 _ c1)).
  destruct (registered_pending u2 (wrote p2 (mkWs (ws_state ws) (ws_sent ws ++ [p1])) c1) Hwf1)
    as (Hwf2 & Hentry2 & Hpending2).
  fold c2 in Hwf2, Hentry2, Hpending2.
  assert (Hlen1 : length (futures c1) = S (length (futures c))).
  { unfold c1. simpl. rewrite length_app. simpl. lia. }
  change (length (futures (wrote p2 (mkWs (ws_state ws) (ws_sent ws ++ [p1])) c1)))
    with (length (futures c1)) in *.
  rewrite Hlen1 in *.
  assert (Hlen2 : length (futures c2) = S (S (length (futures c)))).
  { unfold c2, c1. simpl. rewrite !length_app. simpl. lia. }
  assert (Hentry1' : dict_lookup u1 (listeners c2) = Some (None, length (futures c))).
  { unfold c2. simpl. rewrite dict_lookup_setitem_ne by exact Hne. exact Hentry1. }
  assert (Hpending1' : futures c2 !! length (futures c) = Some fut_pending).
  { unfold c2. simpl. rewrite lookup_app_l by (rewrite length_app; simpl; lia).
    exact Hpending1. }
  rewrite (dispatch_hit c2 m2 u2 None _ Hu2 Hwf2 Hentry2 Hpending2). simpl fst.
  rewrite (resolution_reply m2 u2 Hty2).
  set (c3 := with_futures _ c2).
  assert (Hpending1'' : futures c3 !! length (futures c) = Some fut_pending).
  { unfold c3. simpl futures. rewrite list_lookup_insert_ne by lia. exact Hpending1'. }
  rewrite (dispatch_hit c3 m1 u1 None _ Hu1 Hwf2 Hentry1' Hpending1''). simpl fst.
  rewrite (resolution_reply m1 u1 Hty1).
  split; [reflexivity | split; [rewrite <- Hlen1; reflexivity | split]].
  - unfold request_resume, mbind, Coro_bind.
    rewrite (wait_for_done _ _ _ (fut_result (msg_data m1))); [reflexivity |].
    simpl futures. apply list_lookup_insert_eq.
    rewrite length_insert, !length_app. simpl. lia.
  - unfold request_resume, mbind, Coro_bind.
    rewrite (wait_for_done _ _ _ (fut_result (msg_data m2))); [reflexivity |].
    simpl futures. rewrite list_lookup_insert_ne by lia.
    apply list_lookup_insert_eq. rewrite !length_app. simpl. lia.
Qed.

Lemma replies_matched_by_id_witness :
  (request_resume (mkAwaitable 0 60)
     (_dispatch (msg_of Payloads.response (Some "u1") (VInt 1))
        (_dispatch (msg_of Payloads.response (Some "u2") (VInt 2)) both_requests).1).1).2
    = inr (VInt 1) /\
  (request_resume (mkAwaitable 1 60)
     (_dispatch (msg_of Payloads.response (Some "u1") (VInt 1))
        (_dispatch (msg_of Payloads.response (Some "u2") (VInt 2)) both_requests).1).1).2
    = inr (VInt 2).
Proof.
  destruct (replies_matched_by_id client_authorized ws_one "add" "B" "add" "B" 60 60 [] []
              "u1" "u2" (msg_of Payloads.response (Some "u1") (VInt 1))
              (msg_of Payloads.response (Some "u2") (VInt 2)))
    as (_ & _ & H1 & H2);
    try discriminate; try reflexivity.
  - repeat split; reflexivity.
  - apply NoDup_nil_2.
  - split; [exact H1 | exact H2].
Defined.

(** ** The receive loop *)

Lemma on_message_body_routes (message : WsMessage) (c : Client) :
  routes (on_message_body message c).1 = routes c /\
  events (on_message_body message c).1 = events c.
Proof.
  open_body. repeat (case_match; simplify_eq/=); split; reflexivity.
Qed.

Lemma handlers_fit_events (c c' : Client) :
  events c' = events c -> handlers_fit c' = handlers_fit c.
Proof. intros He. unfold handlers_fit, get_event. rewrite He. reflexivity. Qed.

Lemma on_message_body_known (message : WsMessage) (c : Client) :
  unknown_request c message = false ->
  handlers_fit c = true ->
  percent_format (msg_data message) = None ->
  (on_message_body message c).2 = inr true.
Proof.
  unfold unknown_request, handlers_fit. intros Hknown Hfit Hfmt.
  repeat (apply andb_true_iff in Hfit as [Hfit ?]).
  open_body. simpl length. rewrite Hfmt.
  destruct (is_type message Payloads.success && negb (_authorized c));
    [rewrite Hfit; reflexivity |].
  destruct (is_type message Payloads.ping); [reflexivity |].
  destruct (is_type message Payloads.request); simpl in Hknown.
  - rewrite Hknown. simpl.
    change (get_event (create_task (task_fulfill_request message) c) "on_winerp_request")
      with (get_event c "on_winerp_request").
    rewrite H3. reflexivity.
  - destruct (is_type message Payloads.response).
    + change (get_event (create_task (task_dispatch message) c) "on_winerp_response")
        with (get_event c "on_winerp_response").
      rewrite H2. reflexivity.
    + destruct (is_type message Payloads.error).
      * destruct (match msg_data message with VStr s => _ | _ => false end);
          simpl; rewrite ?H1; destruct (msg_uuid message); reflexivity.
      * destruct (is_type message Payloads.information); [| reflexivity].
        destruct (truthy (msg_data message)); [| reflexivity].
        rewrite H0. reflexivity.
Qed.

Lemma unknown_request_routes (c c' : Client) (message : WsMessage) :
  routes c' = routes c -> unknown_request c' message = unknown_request c message.
Proof. intros Hr. unfold unknown_request, in_routes. rewrite Hr. reflexivity. Qed.

Lemma received_events (incoming : list WsMessage) (c : Client) :
  events (received incoming c) = events c.
Proof.
  revert c. induction incoming as [| message incoming IH]; intros c; simpl; [reflexivity |].
  rewrite IH. apply on_message_body_routes.
Qed.

(** X15.  The transport delivers frames that decode to envelopes whose
    payloads come from JSON (so that no payload is a tuple), no request
    names a route the client does not have, and every event handler
    that is registered can be called with the arguments the loop gives
    it.  Then the receive loop goes through every envelope in order and
    ends only when the transport closes.  On [ConnectionClosedError] it
    makes the "disconnected" notification and breaks;
    [ConnectionClosedOK] is not caught, it escapes the loop and no
    notification is made.  Either way the connection is not open
    afterwards. *)
Theorem receive_loop_reads_all (incoming : list WsMessage) (closure : Closure) (c : Client) :
  handlers_fit c = true ->
  (forall message, message ∈ incoming ->
     unknown_request c message = false /\ percent_format (msg_data message) = None) ->
  __on_message incoming closure c = on_closed closure (received incoming c) /\
  (__on_message incoming closure c).2
    = match closure with
      | closed_error => loop_break
      | closed_ok => loop_raise (mkExc ConnectionClosedOK VNone)
      end /\
  websocket_open (__on_message incoming closure c).1 = false.
Proof.
  intros Hfit Hknown.
  assert (Hloop : __on_message incoming closure c = on_closed closure (received incoming c)).
  { revert c Hfit Hknown.
    induction incoming as [| message incoming IH]; intros c Hfit Hknown; simpl.
    - reflexivity.
    - destruct (Hknown message (list_elem_of_here _ _)) as [Hroute Hfmt].
      pose proof (on_message_body_known message c Hroute Hfit Hfmt) as Hgo.
      destruct (on_message_body_routes message c) as [Hroutes Hevents].
      destruct (on_message_body message c) as [c' go]; simpl in *. subst go.
      apply IH.
      + rewrite (handlers_fit_events c c' Hevents). exact Hfit.
      + intros m Hm. rewrite (unknown_request_routes c c' m Hroutes).
        apply Hknown. apply list_elem_of_further. exact Hm. }
  assert (Hbye : can_call (get_event (received incoming c) "on_winerp_disconnect") 0 = true).
  { unfold get_event. rewrite received_events.
    unfold handlers_fit in Hfit. apply andb_true_iff in Hfit as [_ Hfit]. exact Hfit. }
  rewrite Hloop. unfold on_closed, transport_closed, notify, websocket_open.
  split; [reflexivity | split].
  - destruct closure; [| reflexivity].
    destruct (websocket (received incoming c)); simpl;
      unfold get_event in *; simpl; rewrite Hbye; reflexivity.
  - destruct closure, (websocket (received incoming c)) eqn:Hws; simpl;
      unfold get_event in *; simpl; rewrite ?Hbye; simpl; rewrite ?Hws; reflexivity.
Qed.

Lemma receive_loop_reads_all_witness :
  tasks (__on_message [request_add; response_u1] closed_ok server).1
    = [task_fulfill_request request_add;
       task_event "on_winerp_request" None [];
       task_dispatch response_u1;
       task_event "on_winerp_response" None []] /\
  (__on_message [request_add; response_u1] closed_ok server).2
    = loop_raise (mkExc ConnectionClosedOK VNone).
Proof.
  destruct (receive_loop_reads_all [request_add; response_u1] closed_ok server)
    as (Hloop & Hexit & _).
  - reflexivity.
  - intros m Hm. apply elem_of_cons in Hm as [-> | Hm]; [split; reflexivity |].
    apply list_elem_of_singleton in Hm as ->. split; reflexivity.
  - split; [rewrite Hloop; reflexivity | exact Hexit].
Defined.

(** ** From a new client to the first request *)

(** X16.  A new client is started and the relay answers with a success
    envelope.  Before that envelope [request] raises
    [UnauthorizedError]; after it the client is authorized and not on
    hold, [request] goes out under the given id, and the connection has
    carried exactly the Verification envelope and the Request
    envelope. *)
Theorem handshake_enables_requests (name : string) (port : Z) (v u : string)
    (message : WsMessage) (r src : string) (t : Z) (kw : list (string * PyVal)) :
  msg_type message = Payloads.success ->
  r <> "" -> src <> "" -> json_unserializable (VDict kw) = None ->
  let c0 := __init__ name port in
  let c1 := (start (inr tt) v c0).1 in
  let c2 := (on_message_body message c1).1 in
  fails_with (request r src t kw u c1) c1 UnauthorizedError /\
  _authorized c2 = true /\ _on_hold c2 = false /\
  (request r src t kw u c2).2 = inr (mkAwaitable 0 t) /\
  (websocket (request r src t kw u c2).1 ≫= (fun ws => Some (ws_sent ws)))
    = Some [verification_payload c0 v; request_payload c0 r src kw u].
Proof.
  intros Hty Hr Hsrc Hkw. cbv zeta.
  assert (Hbody : (on_message_body message (start (inr tt) v (__init__ name port)).1)
                  = (with_on_hold false (with_authorized true
                       (create_task (task_event "on_winerp_ready" None [])
                                    (start (inr tt) v (__init__ name port)).1)), inr true)).
  { unfold on_message_body, is_type. rewrite Hty. reflexivity. }
  rewrite Hbody. simpl fst.
  split; [apply raise_fails_with |].
  split; [reflexivity | split; [reflexivity |]].
  rewrite (request_ok _ (mkWs OPEN [verification_payload (__init__ name port) v])
             r src t kw u); [split; reflexivity | | assumption ..].
  repeat split; reflexivity.
Qed.

Lemma handshake_enables_requests_witness :
  (request "add" "B" 60 [] "u1"
     (on_message_body (msg_of Payloads.success (Some "v1") VNone)
                      (start (inr tt) "v1" client_A).1).1).2
    = inr (mkAwaitable 0 60).
Proof.
  apply (handshake_enables_requests "A" 13254 "v1" "u1"
           (msg_of Payloads.success (Some "v1") VNone) "add" "B" 60 []);
    [reflexivity | discriminate | discriminate | reflexivity].
Defined.

(** ** What no operation undoes *)

Lemma evolves_refl (c : Client) : evolves c c.
Proof. unfold evolves. repeat split; auto. Qed.

Lemma evolves_trans (c1 c2 c3 : Client) : evolves c1 c2 -> evolves c2 c3 -> evolves c1 c3.
Proof.
  intros (Hn & Hp & Hr & He & Hl & Hf & Ha & Hh) (Hn' & Hp' & Hr' & He' & Hl' & Hf' & Ha' & Hh').
  unfold evolves. repeat split; try congruence; auto.
  - intros H. apply He', He, H.
  - intros H. apply He, He', H.
Qed.

(** The fields that [evolves] reads are the same terms on both sides. *)
Ltac kept := unfold evolves; simpl; repeat split; auto.

Lemma evolves_bind {A B} (m : Coro A) (k : A -> Coro B) (c : Client) :
  evolves c (m c).1 ->
  (forall a c', evolves c' (k a c').1) ->
  evolves c ((m ≫= k) c).1.
Proof.
  intros Hm Hk. unfold mbind, Coro_bind.
  destruct (m c) as [c' [e | a]]; simpl in *; [exact Hm |].
  eapply evolves_trans; [exact Hm | apply Hk].
Qed.

Lemma evolves_create_task (t : Task) (c : Client) : evolves c (create_task t c).
Proof. kept. Qed.

Lemma evolves_notify (key : string) (args : list EventArg) (c : Client) :
  evolves c (notify key args c).1.
Proof. unfold notify. destruct (can_call _ _); kept. Qed.

Lemma evolves_send_message (data : MessagePayload) (c : Client) :
  evolves c (send_message data c).1.
Proof.
  unfold send_message. destruct (websocket c) as [ws |]; [| kept].
  destruct (payload_unserializable data); [kept |].
  destruct (ws_open ws); kept.
Qed.

Lemma dict_setitem_is_Some {V} (k k' : string) (v : V) (d : list (string * V)) :
  is_Some (dict_lookup k' d) -> is_Some (dict_lookup k' (dict_setitem k v d)).
Proof.
  intros Hk'. destruct (decide (k' = k)) as [-> | Hne].
  - rewrite dict_lookup_setitem. eauto.
  - rewrite dict_lookup_setitem_ne by exact Hne. exact Hk'.
Qed.

Lemma evolves_get_response (_uuid : string) (timeout : Z) (c : Client) :
  evolves c (__get_response _uuid timeout c).1.
Proof.
  unfold evolves. simpl. repeat split; auto.
  - intros k. apply dict_setitem_is_Some.
  - intros f x Hx _. apply lookup_app_l_Some. exact Hx.
Qed.

(** Storing an outcome in a future that is pending keeps every future
    that is done. *)
Lemma evolves_store (future : nat) (o : Future) (c : Client) :
  futures c !! future = Some fut_pending ->
  evolves c (with_futures (<[future := o]> (futures c)) c).
Proof.
  intros Hpending. unfold evolves. simpl. repeat split; auto.
  intros f x Hx Hdone. destruct (decide (f = future)) as [-> | Hne].
  - congruence.
  - rewrite list_lookup_insert_ne by congruence. exact Hx.
Qed.

Lemma evolves_wait_for (aw : Awaitable) (c : Client) : evolves c (wait_for aw c).1.
Proof.
  unfold wait_for. destruct (futures c !! aw_future aw) as [[] |] eqn:Hf;
    try apply evolves_refl.
  apply evolves_store. exact Hf.
Qed.

Lemma evolves_set_outcome (future : nat) (o : Future) (c : Client) :
  evolves c (set_outcome future o c).1.
Proof.
  unfold set_outcome. destruct (futures c !! future) as [[] |] eqn:Hf;
    try apply evolves_refl.
  apply evolves_store. exact Hf.
Qed.

Lemma evolves_resolve (msg : WsMessage) (_uuid : string) (val : Listener) (c : Client) :
  evolves c (resolve msg _uuid val c).1.
Proof.
  unfold resolve, set_result, set_exception.
  destruct (negb _); [destruct (default _ _ _) |]; apply evolves_set_outcome.
Qed.

Lemma evolves_dispatch_items (msg : WsMessage) (_uuid : string)
    (items : list (string * Listener)) (found : bool) (c : Client) :
  evolves c (dispatch_items msg _uuid items found c).1.
Proof.
  revert found c. induction items as [| [key val] items IH]; intros found c; simpl.
  - apply evolves_refl.
  - destruct (decide (key = _uuid)) as [_ | _]; [| apply IH].
    apply evolves_bind; [apply evolves_resolve | intros; apply IH].
Qed.

Lemma evolves_dispatch (msg : WsMessage) (c : Client) : evolves c (_dispatch msg c).1.
Proof.
  unfold _dispatch. destruct (msg_uuid msg) as [_uuid |]; [| apply evolves_refl].
  apply evolves_bind; [apply evolves_dispatch_items |].
  intros [] c'; apply evolves_refl.
Qed.

Lemma evolves_start (connect : PyExc + unit) (_uuid : string) (c : Client) :
  evolves c (start connect _uuid c).1.
Proof.
  unfold start.
  destruct (match websocket c with Some ws => ws_closed ws | None => true end);
    [| apply evolves_refl].
  destruct connect as [e | []]; [apply evolves_refl |].
  apply evolves_bind; [kept | intros _ c1].
  apply evolves_bind; [apply evolves_notify | intros _ c2].
  apply evolves_bind; [apply evolves_send_message | intros _ c3].
  kept.
Qed.

Lemma evolves_route (name : option string) (func : PyFunc) (c : Client) :
  evolves c (route name func c).1.
Proof.
  unfold route.
  destruct (match name with Some n => in_routes c n | None => in_routes c (__name__ func) end);
    [apply evolves_refl |].
  destruct (negb (iscoroutinefunction func)); [apply evolves_refl |].
  unfold evolves. simpl. repeat split; auto.
  intros k Hk. apply lookup_insert_is_Some'. right. exact Hk.
Qed.

Lemma evolves_event (func : PyFunc) (c : Client) : evolves c (event func c).1.
Proof.
  unfold event. destruct (events c !! __name__ func) as [old |] eqn:Hold;
    [| apply evolves_refl].
  destruct (negb (iscoroutinefunction func)); [apply evolves_refl |].
  unfold evolves. simpl. repeat split; auto.
  - intros Hk. apply lookup_insert_is_Some'. right. exact Hk.
  - intros Hk. apply lookup_insert_is_Some' in Hk as [<- | Hk]; [| exact Hk].
    rewrite Hold. eauto.
Qed.

Lemma evolves_ping (client : option string) (timeout : Z) (_uuid : string) (c : Client) :
  evolves c (ping client timeout _uuid c).1.
Proof.
  unfold ping.
  destruct (_on_hold c || negb (websocket_open c)); [apply evolves_refl |].
  destruct (negb (_authorized c)); [apply evolves_refl |].
  apply evolves_bind; [apply evolves_send_message | intros; apply evolves_get_response].
Qed.

Lemma evolves_request (r source : string) (timeout : Z) (kwargs : list (string * PyVal))
    (_uuid : string) (c : Client) :
  evolves c (request r source timeout kwargs _uuid c).1.
Proof.
  unfold request.
  destruct (websocket_open c); [| apply evolves_refl].
  destruct (_on_hold c); [apply evolves_refl |].
  destruct (negb (_authorized c)); [apply evolves_refl |].
  destruct (bool_decide (r = "") || bool_decide (source = "")); [apply evolves_refl |].
  apply evolves_bind; [apply evolves_send_message | intros; apply evolves_get_response].
Qed.

Lemma evolves_inform (data destinations : PyVal) (c : Client) :
  evolves c (inform data destinations c).1.
Proof.
  unfold inform.
  destruct (websocket_open c); [| apply evolves_refl].
  destruct (_on_hold c); [apply evolves_refl |].
  destruct (negb (_authorized c)); [apply evolves_refl |].
  apply evolves_bind; [| intros; apply evolves_send_message].
  unfold log_percent. destruct (percent_format destinations); apply evolves_refl.
Qed.

Lemma evolves_resume (aw : Awaitable) (c : Client) :
  evolves c (ping_resume aw c).1 /\ evolves c (request_resume aw c).1.
Proof.
  split; apply evolves_bind; try apply evolves_wait_for.
  - intros resp c'. destruct resp; apply evolves_refl.
  - intros; apply evolves_refl.
Qed.

Lemma evolves_on_closed (closure : Closure) (c : Client) : evolves c (on_closed closure c).1.
Proof.
  unfold on_closed, transport_closed, notify.
  destruct closure, (websocket c); simpl; try (destruct (can_call _ _)); kept.
Qed.

Lemma evolves_on_message_body (message : WsMessage) (c : Client) :
  evolves c (on_message_body message c).1.
Proof.
  open_body.
  destruct (is_type message Payloads.success && negb (_authorized c)) eqn:Hbranch.
  - apply andb_true_iff in Hbranch as [_ Hauth]. apply negb_true_iff in Hauth.
    destruct (can_call _ _); unfold evolves; simpl; repeat split; auto; congruence.
  - repeat (case_match; simplify_eq/=); kept.
Qed.

Section Evolution.

Variable py_str : PyExc -> string.
Variable format_exception : PyExc -> list string.

Local Abbreviation step := (step py_str format_exception).
Local Abbreviation run := (run py_str format_exception).

Lemma evolves_fulfill_request (message : WsMessage) (c : Client) :
  evolves c (_fulfill_request py_str format_exception message c).1.
Proof.
  unfold _fulfill_request, __send_message, notify.
  destruct (msg_route message ≫= _) as [func |]; [| apply evolves_refl].
  destruct (try_handler _ _ _) as [payload [e |]]; simpl; [| kept].
  destruct (is_Exception (exc_class e)); [| kept].
  destruct (can_call _ _); kept.
Qed.

Lemma step_evolves (c : Client) (op : Op) : evolves c (step c op).
Proof.
  destruct op;
    [ apply evolves_start
    | apply evolves_route
    | apply evolves_event
    | apply evolves_ping
    | apply (proj1 (evolves_resume aw c))
    | apply evolves_request
    | apply (proj2 (evolves_resume aw c))
    | apply evolves_inform
    | apply evolves_get_response
    | apply evolves_send_message
    | apply evolves_on_message_body
    | apply evolves_on_closed
    | apply evolves_fulfill_request
    | apply evolves_dispatch
    | simpl; destruct (websocket c); kept ].
Qed.

Lemma run_evolves (ops : list Op) (c : Client) : evolves c (run c ops).
Proof.
  unfold run. revert c.
  induction ops as [| op ops IH]; intros c; simpl; [apply evolves_refl |].
  eapply evolves_trans; [apply step_evolves | apply IH].
Qed.

(** X19.  Once a client that is authorized has been put on hold, it stays on
    hold whatever happens afterwards (envelopes of any kind, closures,
    restarts, calls): the only statement that clears the hold is guarded
    by [not self._authorized], and the authorization is never taken
    back.  From then on [request], [ping] and [inform] raise
    [ClientNotReadyError]. *)
Theorem hold_of_authorized_client_is_permanent (ops : list Op) (c : Client) :
  _authorized c = true -> _on_hold c = true ->
  _on_hold (run c ops) = true /\
  forall cl t u, fails_with (ping cl t u (run c ops)) (run c ops) ClientNotReadyError.
Proof.
  intros Hauth Hhold.
  destruct (run_evolves ops c) as (_ & _ & _ & _ & _ & _ & _ & Hkeep).
  pose proof (Hkeep Hauth Hhold) as Hheld. split; [exact Hheld |].
  intros cl t u. unfold ping. rewrite Hheld. apply raise_fails_with.
Qed.

(** X20.  A future that is done (it holds a result or an exception, or it was
    cancelled by a timeout) keeps its outcome for ever: no later reply,
    timeout or registration changes it. *)
Theorem future_outcome_is_final (ops : list Op) (c : Client) (f : nat) (x : Future) :
  futures c !! f = Some x -> x <> fut_pending ->
  futures (run c ops) !! f = Some x.
Proof.
  intros Hx Hdone.
  destruct (run_evolves ops c) as (_ & _ & _ & _ & _ & Hkeep & _).
  exact (Hkeep f x Hx Hdone).
Qed.

(** X21.  No operation removes an entry of the correlation table: an id that
    has an entry keeps one whatever happens afterwards, so the table
    only grows over the life of the client. *)
Theorem correlation_table_never_shrinks (ops : list Op) (c : Client) (k : string) :
  is_Some (dict_lookup k (listeners c)) ->
  is_Some (dict_lookup k (listeners (run c ops))).
Proof.
  intros Hk. destruct (run_evolves ops c) as (_ & _ & _ & _ & Hkeep & _).
  exact (Hkeep k Hk).
Qed.

(** X22.  No operation removes a route or renames the client: a route name
    that is registered stays registered, so the invoker finds a handler
    for a request that the receive loop accepted, whenever its task
    runs. *)
Theorem route_names_are_permanent (ops : list Op) (c : Client) (message : WsMessage) :
  is_type message Payloads.request = true ->
  unknown_request c message = false ->
  local_name (run c ops) = local_name c /\
  is_Some (msg_route message ≫= (fun r => routes (run c ops) !! r)).
Proof.
  intros Hty Hknown.
  destruct (run_evolves ops c) as (Hname & _ & Hkeep & _).
  split; [exact Hname |].
  unfold unknown_request, in_routes in Hknown. rewrite Hty in Hknown. simpl in Hknown.
  apply negb_false_iff in Hknown.
  destruct (msg_route message) as [r |]; [| discriminate]. simpl.
  apply Hkeep. destruct (routes c !! r); [eauto | discriminate].
Qed.

Lemma init_events (name : string) (port : Z) (k : string) :
  is_Some (events (__init__ name port) !! k) <-> k ∈ event_names.
Proof.
  unfold event_names. simpl. rewrite !lookup_insert_is_Some', lookup_empty, !elem_of_cons.
  rewrite elem_of_nil. split.
  - intros H. repeat (destruct H as [H | H]; [auto 10 |]). destruct H as [x H]. discriminate.
  - intros H. repeat (destruct H as [H | H]; [auto 10 |]). contradiction.
Qed.

(** X8.  The event table of a client has the seven event names as keys all
    its life.  So [event] accepts a function exactly when it is a
    coroutine function named after one of the seven events. *)
Theorem event_accepted_iff (ops : list Op) (name : string) (port : Z) (func : PyFunc) :
  (event func (run (__init__ name port) ops)).2 = inr func <->
  __name__ func ∈ event_names /\ iscoroutinefunction func = true.
Proof.
  destruct (run_evolves ops (__init__ name port)) as (_ & _ & _ & Hkeys & _).
  rewrite <- (init_events name port), (Hkeys (__name__ func)).
  unfold event. destruct (events _ !! __name__ func) as [old |].
  - destruct (iscoroutinefunction func); simpl.
    + split; [intros _; split; [eauto | reflexivity] | reflexivity].
    + split; [discriminate | intros [_ H]; discriminate].
  - split; [discriminate | intros [[x H] _]; discriminate].
Qed.

End Evolution.

Lemma hold_of_authorized_client_is_permanent_witness :
  _on_hold (run str_sample format_sample client_held_authorized sample_life) = true.
Proof.
  apply (hold_of_authorized_client_is_permanent str_sample format_sample sample_life
           client_held_authorized); reflexivity.
Defined.

Lemma future_outcome_is_final_witness :
  futures (run str_sample format_sample (_dispatch response_u1 client_waiting).1
               [op_dispatch error_u1; op_request_resume (mkAwaitable 0 60);
                op_get_response "u1" 5]) !! 0
    = Some (fut_result (VDict [("success", VBool true)])).
Proof.
  apply (future_outcome_is_final str_sample format_sample); [reflexivity | discriminate].
Defined.

Lemma correlation_table_never_shrinks_witness :
  is_Some (dict_lookup "u1"
             (listeners (run str_sample format_sample client_waiting
                             [op_dispatch response_u1; op_request_resume (mkAwaitable 0 60);
                              op_closed closed_error; op_start (inr tt) "v2"]))).
Proof.
  apply (correlation_table_never_shrinks str_sample format_sample). vm_compute. eauto.
Defined.

Lemma route_names_are_permanent_witness :
  is_Some (msg_route request_add
             ≫= (fun r => routes (run str_sample format_sample server
                                      [op_route (Some "") other_add; op_closed closed_ok]) !! r)).
Proof.
  apply (route_names_are_permanent str_sample format_sample _ server request_add);
    reflexivity.
Defined.

(** ** Serving a request *)

Section Serving.

Variable py_str : PyExc -> string.
Variable format_exception : PyExc -> list string.

(** X17.  A request for a registered route is served from the receive loop to
    the wire, whether or not the client is authorized or on hold,
    provided the "request" handler (when one is registered) can be
    called without arguments: the loop hands the request to the invoker
    and makes the "request received" notification; the invoker, when
    the route handler returns a value that JSON can encode, hands one
    Response envelope to the event loop; written on an open connection,
    that envelope is the next thing the connection carries.  It holds
    the handler's value, the client's name and the correlation id of
    the request. *)
Theorem request_is_served (c : Client) (ws : WebSocket) (message : WsMessage)
    (r : string) (func : PyFunc) (v : PyVal) :
  websocket c = Some ws -> ws_open ws = true ->
  can_call (get_event c "on_winerp_request") 0 = true ->
  msg_type message = Payloads.request ->
  msg_route message = Some r -> routes c !! r = Some func ->
  call_kwargs func (msg_data message) = Returns v ->
  json_unserializable v = None ->
  let c1 := (on_message_body message c).1 in
  let c2 := (_fulfill_request py_str format_exception message c1).1 in
  let reply :=
    set_p_data v (set_p_id (local_name c)
      (set_p_type Payloads.response (from_message MessagePayload_new message))) in
  (on_message_body message c).2 = inr true /\
  tasks c1 = tasks c ++ [task_fulfill_request message;
                         task_event "on_winerp_request" (get_event c "on_winerp_request") []] /\
  tasks c2 = tasks c1 ++ [task_send_message reply] /\
  send_message reply c2 = (wrote reply ws c2, inr tt) /\
  p_type reply = Some Payloads.response /\ p_data reply = v /\
  p_id reply = Some (local_name c) /\ p_uuid reply = msg_uuid message.
Proof.
  intros Hws Hopen Hnotify Hty Hroute Hfunc Hcall Hser. cbv zeta.
  assert (Hbody : on_message_body message c
                  = (create_task (task_event "on_winerp_request"
                                             (get_event c "on_winerp_request") [])
                                 (create_task (task_fulfill_request message) c),
                     inr true)).
  { open_body. unfold is_type, in_routes. rewrite Hty, Hroute, Hfunc. simpl.
    change (get_event (create_task (task_fulfill_request message) c) "on_winerp_request")
      with (get_event c "on_winerp_request").
    rewrite Hnotify. reflexivity. }
  rewrite Hbody. simpl fst. simpl snd.
  assert (Hinvoke : (_fulfill_request py_str format_exception message
                       (create_task (task_event "on_winerp_request"
                                                (get_event c "on_winerp_request") [])
                                    (create_task (task_fulfill_request message) c))).1
                    = __send_message
                        (set_p_data v (set_p_id (local_name c)
                           (set_p_type Payloads.response
                              (from_message MessagePayload_new message))))
                        (create_task (task_event "on_winerp_request"
                                                 (get_event c "on_winerp_request") [])
                                     (create_task (task_fulfill_request message) c))).
  { unfold _fulfill_request, try_handler. rewrite Hroute. simpl. rewrite Hfunc, Hcall, Hser.
    reflexivity. }
  rewrite Hinvoke.
  split; [reflexivity |].
  split; [unfold create_task; simpl; rewrite <- app_assoc; reflexivity |].
  split; [reflexivity |].
  split; [| repeat split; reflexivity].
  apply send_message_ok; [exact Hws | exact Hopen |].
  unfold payload_unserializable. simpl. destruct (msg_route message); exact Hser.
Qed.

End Serving.

Lemma request_is_served_witness :
  tasks (_fulfill_request str_sample format_sample request_add
           (on_message_body request_add
              (with_authorized false (with_on_hold true server))).1).1
    = tasks (on_message_body request_add
               (with_authorized false (with_on_hold true server))).1
      ++ [task_send_message
            (set_p_data (VInt 5) (set_p_id "A"
               (set_p_type Payloads.response
                  (from_message MessagePayload_new request_add))))].
Proof.
  exact (proj1 (proj2 (proj2 (request_is_served str_sample format_sample
                         (with_authorized false (with_on_hold true server)) ws_one
                         request_add "add" add_handler (VInt 5)
                         eq_refl eq_refl eq_refl eq_refl eq_refl eq_refl eq_refl
                         eq_refl)))).
Defined.

(** ** Errors from the relay *)




(** ** A reply that comes too late *)

Lemma dispatch_items_refused (msg : WsMessage) (u : string)
    (items : list (string * Listener)) (found : bool) (val : Listener) (c : Client)
    (x : Future) :
  dict_lookup u items = Some val ->
  futures c !! val.2 = Some x -> x <> fut_pending ->
  dispatch_items msg u items found c
    = (c, inl (mkExc InvalidStateError (VStr "invalid state"))).
Proof.
  intros Hentry Hx Hdone. revert found.
  induction items as [| [key v] items IH]; intros found; simpl in *; [discriminate |].
  destruct (decide (key = u)) as [_ | _]; [| apply IH; exact Hentry].
  injection Hentry as ->. unfold mbind, Coro_bind.
  assert (Hres : resolve msg u val c
                 = (c, inl (mkExc InvalidStateError (VStr "invalid state")))).
  { unfold resolve, set_result, set_exception, set_outcome.
    destruct (negb _); [destruct (default _ _ _) |]; rewrite Hx;
      destruct x; try reflexivity; contradiction Hdone; reflexivity. }
  rewrite Hres. reflexivity.
Qed.

(** X14.  A request whose caller has timed out leaves its entry in the table
    with a cancelled future.  When an envelope with that correlation id
    arrives afterwards, the dispatcher finds the entry and
    [set_result] (or [set_exception]) fails on the cancelled future: the
    dispatcher task ends with [InvalidStateError], not with
    [UUIDNotFoundError], and the client is unchanged. *)
Theorem reply_after_timeout_is_refused (c : Client) (ws : WebSocket) (r src : string)
    (t : Z) (kw : list (string * PyVal)) (u : string) (msg : WsMessage) :
  ready c ws -> r <> "" -> src <> "" -> json_unserializable (VDict kw) = None ->
  msg_uuid msg = Some u ->
  let aw := mkAwaitable (length (futures c)) t in
  let c2 := (request_resume aw (request r src t kw u c).1).1 in
  futures c2 !! length (futures c) = Some fut_cancelled /\
  fails_with (_dispatch msg c2) c2 InvalidStateError.
Proof.
  intros Hready Hr Hsrc Hkw Huuid. cbv zeta.
  rewrite (request_ok c ws r src t kw u Hready Hr Hsrc Hkw). simpl fst.
  set (c0 := wrote (request_payload c r src kw u) ws c).
  assert (Hpending : futures (registered u c0) !! length (futures c) = Some fut_pending)
    by (unfold registered; simpl; apply list_lookup_middle; reflexivity).
  unfold request_resume, mbind, Coro_bind.
  rewrite (wait_for_done _ _ _ _ Hpending). simpl fst.
  assert (Hcancelled :
            futures (with_futures (<[length (futures c) := fut_cancelled]>
                                     (futures (registered u c0))) (registered u c0))
              !! length (futures c) = Some fut_cancelled).
  { simpl. apply list_lookup_insert_eq. rewrite length_app. simpl. unfold c0. simpl. lia. }
  split; [exact Hcancelled |].
  unfold _dispatch. rewrite Huuid. unfold mbind, Coro_bind.
  rewrite (dispatch_items_refused msg u _ false (None, length (futures c)) _ fut_cancelled);
    [apply raise_fails_with | | exact Hcancelled | discriminate].
  simpl. apply dict_lookup_setitem.
Qed.

Lemma reply_after_timeout_is_refused_witness :
  fails_with
    (_dispatch response_u1
       (request_resume (mkAwaitable 0 60)
          (request "add" "B" 60 [] "u1" client_authorized).1).1)
    (request_resume (mkAwaitable 0 60) (request "add" "B" 60 [] "u1" client_authorized).1).1
    InvalidStateError.
Proof.
  apply (reply_after_timeout_is_refused client_authorized ws_one "add" "B" 60 [] "u1"
           response_u1).
  - repeat split; reflexivity.
  - discriminate.
  - discriminate.
  - reflexivity.
  - reflexivity.
Defined.

(** ** What the dispatcher leaves alone *)

Lemma only_futures_refl (c : Client) : only_futures c c.
Proof. destruct c. split; reflexivity. Qed.

Lemma only_futures_trans (c1 c2 c3 : Client) :
  only_futures c1 c2 -> only_futures c2 c3 -> only_futures c1 c3.
Proof.
  intros [H12 L12] [H23 L23]. split; [| congruence].
  rewrite H23 at 1. rewrite H12. reflexivity.
Qed.

Lemma only_futures_set_outcome (future : nat) (o : Future) (c : Client) :
  only_futures c (set_outcome future o c).1.
Proof.
  unfold set_outcome. destruct (futures c !! future) as [[] |];
    try apply only_futures_refl.
  split; [reflexivity | apply length_insert].
Qed.

Lemma only_futures_dispatch_items (msg : WsMessage) (_uuid : string)
    (items : list (string * Listener)) (found : bool) (c : Client) :
  only_futures c (dispatch_items msg _uuid items found c).1.
Proof.
  revert found c. induction items as [| [key val] items IH]; intros found c; simpl.
  - apply only_futures_refl.
  - destruct (decide (key = _uuid)) as [_ | _]; [| apply IH].
    unfold mbind, Coro_bind.
    assert (Hres : only_futures c (resolve msg _uuid val c).1).
    { unfold resolve, set_result, set_exception.
      destruct (negb _); [destruct (default _ _ _) |]; apply only_futures_set_outcome. }
    destruct (resolve msg _uuid val c) as [c' [e | []]]; simpl in *; [exact Hres |].
    eapply only_futures_trans; [exact Hres | apply IH].
Qed.

(** X23.  Whatever envelope it is given, the dispatcher changes nothing but
    outcomes in the futures store: it writes nothing to the connection,
    hands nothing to the event loop, creates no future, and leaves the
    correlation table, the routes and the flags as they are.  An
    envelope without a correlation id raises [MissingUUIDError] before
    anything is looked at. *)
Theorem dispatcher_touches_only_futures (msg : WsMessage) (c : Client) :
  only_futures c (_dispatch msg c).1 /\
  (msg_uuid msg = None -> fails_with (_dispatch msg c) c MissingUUIDError).
Proof.
  unfold _dispatch. destruct (msg_uuid msg) as [_uuid |].
  - split; [| discriminate]. unfold mbind, Coro_bind.
    pose proof (only_futures_dispatch_items msg _uuid (listeners c) false c) as Hitems.
    destruct (dispatch_items msg _uuid (listeners c) false c) as [c' [e | []]];
      simpl in *; exact Hitems.
  - split; [apply only_futures_refl | intros _; apply raise_fails_with].
Qed.

Lemma dispatcher_touches_only_futures_witness :
  fails_with (_dispatch (msg_of Payloads.response None VNone) client_waiting)
             client_waiting MissingUUIDError.
Proof.
  apply (proj2 (dispatcher_touches_only_futures
                  (msg_of Payloads.response None VNone) client_waiting)).
  reflexivity.
Defined.
